(** * dnet optimizers: a shallow embedding of [dnet/optimizers.py]

    The module defines a base [Optimizer] class and two training loops,
    [SGD.train] and [Momentum.train].  Python methods are embedded as
    functions in an exception monad ([outcome]); the object a method
    mutates is passed in and returned.  Arrays are two-dimensional, with
    the element-wise operators broadcasting the way the array library
    does.  Scalar arithmetic is kept abstract behind the [Scalar] class,
    so that no algebraic law is used unless a theorem asks for it. *)

From Stdlib Require Import ZArith QArith Qcanon Lia.
From stdpp Require Import base option list numbers.

Set Default Proof Using "Type".

(** ** Scalars *)

(** The arithmetic the source performs on numbers.  [pow] is Python's
    [**] with an integer exponent and [centi] the literal [0.01]. *)
Class Scalar (F : Type) := {
  zero : F;
  one : F;
  centi : F;
  add : F → F → F;
  sub : F → F → F;
  mul : F → F → F;
  div : F → F → F;
  pow : F → Z → F
}.

(** ** Exceptions *)

(** [IndexError] is a list index out of range, [ShapeError] the array
    library rejecting incompatible shapes, [NotImplementedError] the
    abstract [Optimizer.train].  No statement of the source raises
    [ConfigurationError]; the constructor is here so that properties
    about it can be written down. *)
Inductive exn : Set :=
  | IndexError
  | ShapeError
  | NotImplementedError
  | ConfigurationError.

Inductive outcome (A : Type) : Type :=
  | Returns (a : A)
  | Raises (e : exn).
Arguments Returns {A} a.
Arguments Raises {A} e.

#[export] Instance outcome_ret : MRet outcome := λ A a, Returns a.
#[export] Instance outcome_bind : MBind outcome := λ A B k m,
  match m with
  | Returns a => k a
  | Raises e => Raises e
  end.
#[export] Instance outcome_fmap : FMap outcome := λ A B f m,
  match m with
  | Returns a => Returns (f a)
  | Raises e => Raises e
  end.

(** [for x in xs: s = body(s, x)], stopping at the first exception. *)
Fixpoint for_each {A S : Type} (body : S → A → outcome S) (xs : list A) (s : S)
  : outcome S :=
  match xs with
  | [] => Returns s
  | x :: xs' => s' ← body s x; for_each body xs' s'
  end.

(** The states in which the iterations of [for_each] are entered, in
    order, together with the state the loop ends in. *)
Fixpoint for_each_scan {A S : Type} (body : S → A → outcome S) (xs : list A) (s : S)
  : outcome (list S * S) :=
  match xs with
  | [] => Returns ([], s)
  | x :: xs' =>
      s' ← body s x;
      r ← for_each_scan body xs' s';
      mret (s :: r.1, r.2)
  end.

(** [for _ in range(n): s = body(s)]. *)
Fixpoint repeat_n {S : Type} (body : S → outcome S) (n : nat) (s : S) : outcome S :=
  match n with
  | O => Returns s
  | S n' => s' ← body s; repeat_n body n' s'
  end.

(** [enumerate(xs)]. *)
Definition enumerate {A : Type} (xs : list A) : list (nat * A) :=
  zip (seq 0 (length xs)) xs.

(** [xs[i]] for a non-negative [i]. *)
Definition py_index {A : Type} (xs : list A) (i : nat) : outcome A :=
  match xs !! i with
  | Some x => Returns x
  | None => Raises IndexError
  end.

(** ** Arrays *)

Section Arrays.
Context {F : Type} {scalar : Scalar F}.

(** A two-dimensional array: its rows, and the number of columns
    (which the rows alone do not determine when there are none). *)
Record array : Type := Arr { ncols : nat; rows : list (list F) }.

Definition nrows (a : array) : nat := length (rows a).
Definition shape (a : array) : nat * nat := (nrows a, ncols a).

(** Every row has [ncols] entries. *)
Definition rectangular (a : array) : Prop :=
  Forall (λ r, length r = ncols a) (rows a).

(** [a[i, j]]. *)
Definition entry (a : array) (i j : nat) : option F :=
  r ← rows a !! i; r !! j.

Definition zeros (s : nat * nat) : array :=
  Arr s.2 (replicate s.1 (replicate s.2 zero)).

Definition zeros_like (a : array) : array := zeros (shape a).

(** An operator applied to every entry: a scalar against an array. *)
Definition smap (f : F → F) (a : array) : array :=
  Arr (ncols a) (map (map f) (rows a)).

(** The extent two extents broadcast to. *)
Definition bdim (m n : nat) : outcome nat :=
  if decide (m = n) then Returns m
  else if decide (m = 1) then Returns n
  else if decide (n = 1) then Returns m
  else Raises ShapeError.

(** An axis of extent [have] stretched to extent [want]: unchanged
    when they agree, its single element repeated otherwise. *)
Definition stretch {A : Type} (have want : nat) (l : list A) : list A :=
  if decide (have = want) then l
  else match l with
       | x :: _ => replicate want x
       | [] => []
       end.

(** An element-wise binary operator on two arrays, with broadcasting. *)
Definition broadcast2 (f : F → F → F) (a b : array) : outcome array :=
  r ← bdim (nrows a) (nrows b);
  c ← bdim (ncols a) (ncols b);
  let ra := stretch (nrows a) r (map (stretch (ncols a) c) (rows a)) in
  let rb := stretch (nrows b) r (map (stretch (ncols b) c) (rows b)) in
  mret (Arr c (zip_with (zip_with f) ra rb)).

Definition aadd : array → array → outcome array := broadcast2 add.
Definition asub : array → array → outcome array := broadcast2 sub.

Definition column (j : nat) (a : array) : list F :=
  omap (λ r, r !! j) (rows a).

(** The matrix product [dot(a, b)]. *)
Definition dot (a b : array) : outcome array :=
  if decide (ncols a = nrows b) then
    mret (Arr (ncols b)
              (map (λ r, map (λ j, foldl add zero (zip_with mul r (column j b)))
                             (seq 0 (ncols b)))
                   (rows a)))
  else Raises ShapeError.

(** The dictionary [{"w": w, "b": b}] kept per layer, for parameters,
    gradients and velocities alike. *)
Record ParamDict : Type := mkParams { w : array; b : array }.

Record Batch : Type := mkBatch { inputs : array; outputs : array }.

End Arrays.
Arguments array F : clear implicits.
Arguments ParamDict F : clear implicits.
Arguments Batch F : clear implicits.

(** ** Collaborators outside [optimizers.py] *)

(** Modelled from the spec: [dnet.layers.FC], of which the optimizers
    read the unit count and the activation function ("exposes unit count
    and an activation function").  The unit count is an array extent. *)
Record FC (F : Type) : Type := mkFC {
  units : nat;
  activation : array F → array F
}.
Arguments mkFC {F} units activation.
Arguments units {F} _.
Arguments activation {F} _.

(** The array library: the random number generator of [jax.random],
    whose functions are pure in the key, and the transformations [grad]
    and [jit], which turn the cost function into the gradient function. *)
Class Jax (F : Type) {scalar : Scalar F} := {
  Key : Type;
  PRNGKey : Z → Key;
  split : Key → Key * Key;
  normal : Key → nat * nat → array F;
  grad : (list (ParamDict F) → array F → array F → outcome F) →
         list (ParamDict F) → array F → array F → outcome (list (ParamDict F));
  jit : (list (ParamDict F) → array F → array F → outcome (list (ParamDict F))) →
        list (ParamDict F) → array F → array F → outcome (list (ParamDict F))
}.

(** Modelled from the spec: [dnet.data.BatchIterator], "callable as
    iterator(inputs, outputs) -> sequence of Batch", a finite sequence
    produced anew at every call. *)
Class Data (F : Type) := {
  BatchIterator : Z → array F → array F → list (Batch F)
}.

(** ** class Optimizer *)

Module Optimizer.
Section Optimizer.
Context {F : Type} {scalar : Scalar F} {jax : Jax F} {data : Data F}.

(** The attributes [__init__] sets.  [grad_fn] is not a field: it is
    [jit(grad(self.compute_cost))], a function of the object, below. *)
Record t : Type := mk {
  layers : list (FC F);
  loss_fn : array F → array F → F;
  accuracy_fn : array F → array F → F;
  epochs : Z;
  lr : F;
  iterator : array F → array F → list (Batch F);
  network_params : list (ParamDict F);
  cost : list F;
  accuracy : list F
}.

Definition set_network_params (ps : list (ParamDict F)) (self : t) : t :=
  mk (layers self) (loss_fn self) (accuracy_fn self) (epochs self) (lr self)
     (iterator self) ps (cost self) (accuracy self).
Definition set_cost (c : list F) (self : t) : t :=
  mk (layers self) (loss_fn self) (accuracy_fn self) (epochs self) (lr self)
     (iterator self) (network_params self) c (accuracy self).
Definition set_accuracy (a : list F) (self : t) : t :=
  mk (layers self) (loss_fn self) (accuracy_fn self) (epochs self) (lr self)
     (iterator self) (network_params self) (cost self) a.

Definition __init__ (layers : list (FC F)) (loss accuracy : array F → array F → F)
    (epochs : Z) (lr : F) (bs : Z) : outcome t :=
  mret (mk layers loss accuracy epochs lr (BatchIterator bs) [] [] []).

Definition train (self : t) (inputs outputs : array F) : outcome t :=
  Raises NotImplementedError.

(** The body of [for i, layer in enumerate(self.layers)], on the
    variables [key] and [self]. *)
Definition init_layer (input_shape : nat * nat) (ks : Key * t) (il : nat * FC F)
    : outcome (Key * t) :=
  let '(key, self) := ks in
  let '(i, layer) := il in
  let '(key, subkey) := split key in
  prev ← (if decide (i ≠ 0)
          then units <$> py_index (layers self) (i - 1)
          else mret input_shape.1);
  let weight_shape := (units layer, prev) in
  let w := smap (λ x, mul x centi) (normal subkey weight_shape) in
  let b := zeros (units layer, 1) in
  mret (key, set_network_params (network_params self ++ [mkParams w b]) self).

Definition init_network_params (self : t) (input_shape : nat * nat) : outcome t :=
  snd <$> for_each (init_layer input_shape) (enumerate (layers self)) (PRNGKey 0, self).

(** The body of [for i, layer in enumerate(self.layers)] in
    [compute_predictions], on the variable [a]. *)
Definition forward_layer (params : list (ParamDict F)) (a : array F) (il : nat * FC F)
    : outcome (array F) :=
  let '(i, layer) := il in
  p ← py_index params i;
  wa ← dot (w p) a;
  z ← aadd wa (b p);
  mret (activation layer z).

Definition compute_predictions (self : t) (params : list (ParamDict F))
    (inputs : array F) : outcome (array F) :=
  for_each (forward_layer params) (enumerate (layers self)) inputs.

Definition compute_cost (self : t) (params : list (ParamDict F))
    (inputs outputs : array F) : outcome F :=
  predictions ← compute_predictions self params inputs;
  mret (loss_fn self predictions outputs).

Definition compute_accuracy (self : t) (predictions outputs : array F) : F :=
  accuracy_fn self predictions outputs.

Definition evaluate (self : t) (inputs outputs : array F) : outcome F :=
  predictions ← compute_predictions self (network_params self) inputs;
  mret (compute_accuracy self predictions outputs).

Definition grad_fn (self : t)
  : list (ParamDict F) → array F → array F → outcome (list (ParamDict F)) :=
  jit (grad (compute_cost self)).

End Optimizer.
Arguments t F : clear implicits.
End Optimizer.

(** ** class SGD(Optimizer) *)

Module SGD.
Section SGD.
Context {F : Type} {scalar : Scalar F} {jax : Jax F} {data : Data F}.
Import Optimizer.

(** The variables of the epoch body: the object and [loss]. *)
Record locals : Type := mkLocals { self_ : Optimizer.t F; loss : F }.

(** The body of [for i, layer_params in enumerate(grads)]. *)
Definition update_layer (self : Optimizer.t F) (il : nat * ParamDict F)
    : outcome (Optimizer.t F) :=
  let '(i, layer_params) := il in
  p ← py_index (network_params self) i;
  w' ← asub (w p) (smap (mul (lr self)) (w layer_params));
  let self := set_network_params (<[i := mkParams w' (b p)]> (network_params self)) self in
  p ← py_index (network_params self) i;
  b' ← asub (b p) (smap (mul (lr self)) (b layer_params));
  mret (set_network_params (<[i := mkParams (w p) b']> (network_params self)) self).

(** The body of [for batch in self.iterator(inputs, outputs)]. *)
Definition batch_step (st : locals) (batch : Batch F) : outcome locals :=
  grads ← grad_fn (self_ st) (network_params (self_ st)) (inputs batch) (outputs batch);
  self ← for_each update_layer (enumerate grads) (self_ st);
  c ← compute_cost self (network_params self) (inputs batch) (outputs batch);
  mret (mkLocals self (add (loss st) c)).

(** The body of [for _ in range(self.epochs)]. *)
Definition epoch (inputs outputs : array F) (self : Optimizer.t F)
    : outcome (Optimizer.t F) :=
  st ← for_each batch_step (iterator self inputs outputs) (mkLocals self zero);
  let self := set_cost (cost (self_ st) ++ [loss st]) (self_ st) in
  acc ← evaluate self inputs outputs;
  mret (set_accuracy (accuracy self ++ [acc]) self).

Definition train (self : Optimizer.t F) (inputs outputs : array F)
    : outcome (Optimizer.t F) :=
  self ← init_network_params self (shape inputs);
  repeat_n (epoch inputs outputs) (Z.to_nat (epochs self)) self.

End SGD.
End SGD.

(** ** class Momentum(Optimizer) *)

Module Momentum.
Section Momentum.
Context {F : Type} {scalar : Scalar F} {jax : Jax F} {data : Data F}.
Import Optimizer.

(** An [Optimizer] with the attributes [beta] and [momentum_params].
    The latter is first assigned by [init_network_params]; before that
    it is shown as the empty list, and nothing reads it. *)
Record t : Type := mk {
  base : Optimizer.t F;
  beta : F;
  momentum_params : list (ParamDict F)
}.

Definition set_base (o : Optimizer.t F) (self : t) : t :=
  mk o (beta self) (momentum_params self).
Definition set_momentum_params (vs : list (ParamDict F)) (self : t) : t :=
  mk (base self) (beta self) vs.

Definition __init__ (layers : list (FC F)) (loss accuracy : array F → array F → F)
    (epochs : Z) (lr : F) (bs : Z) (beta : F) : outcome t :=
  o ← Optimizer.__init__ layers loss accuracy epochs lr bs;
  mret (mk o beta []).

Definition init_network_params (self : t) (input_shape : nat * nat) : outcome t :=
  o ← Optimizer.init_network_params (base self) input_shape;
  mret (mk o (beta self)
           (map (λ params, mkParams (zeros_like (w params)) (zeros_like (b params)))
                (network_params o))).

(** The variables of the epoch body: the object, [loss], [batch_num]. *)
Record locals : Type := mkLocals { self_ : t; loss : F; batch_num : Z }.

(** The body of [for i, layer_params in enumerate(grads)]. *)
Definition update_layer (batch_num : Z) (self : t) (il : nat * ParamDict F) : outcome t :=
  let '(i, layer_params) := il in
  v ← py_index (momentum_params self) i;
  s ← aadd (smap (mul (beta self)) (w v))
           (smap (sub one) (smap (mul (beta self)) (w layer_params)));
  let vw := smap (λ x, div x (sub one (pow (beta self) batch_num))) s in
  let self := set_momentum_params (<[i := mkParams vw (b v)]> (momentum_params self)) self in
  v ← py_index (momentum_params self) i;
  s ← aadd (smap (mul (beta self)) (b v))
           (smap (sub one) (smap (mul (beta self)) (b layer_params)));
  let vb := smap (λ x, div x (sub one (pow (beta self) batch_num))) s in
  let self := set_momentum_params (<[i := mkParams (w v) vb]> (momentum_params self)) self in
  p ← py_index (network_params (base self)) i;
  v ← py_index (momentum_params self) i;
  w' ← asub (w p) (smap (mul (lr (base self))) (w v));
  let self := set_base (set_network_params
                          (<[i := mkParams w' (b p)]> (network_params (base self)))
                          (base self)) self in
  p ← py_index (network_params (base self)) i;
  v ← py_index (momentum_params self) i;
  b' ← asub (b p) (smap (mul (lr (base self))) (b v));
  mret (set_base (set_network_params
                    (<[i := mkParams (w p) b']> (network_params (base self)))
                    (base self)) self).

(** The body of [for batch in self.iterator(inputs, outputs)]. *)
Definition batch_step (st : locals) (batch : Batch F) : outcome locals :=
  grads ← grad_fn (base (self_ st)) (network_params (base (self_ st)))
                  (inputs batch) (outputs batch);
  self ← for_each (update_layer (batch_num st)) (enumerate grads) (self_ st);
  let batch_num := (batch_num st + 1)%Z in
  c ← compute_cost (base self) (network_params (base self)) (inputs batch) (outputs batch);
  mret (mkLocals self (add (loss st) c) batch_num).

(** What the epoch body does once its batch loop has ended in [st]. *)
Definition end_of_epoch (inputs outputs : array F) (st : locals) : outcome t :=
  let o := set_cost (cost (base (self_ st)) ++ [loss st]) (base (self_ st)) in
  acc ← evaluate o inputs outputs;
  mret (set_base (set_accuracy (accuracy o ++ [acc]) o) (self_ st)).

(** The body of [for _ in range(self.epochs)]. *)
Definition epoch (inputs outputs : array F) (self : t) : outcome t :=
  st ← for_each batch_step (iterator (base self) inputs outputs) (mkLocals self zero 1);
  end_of_epoch inputs outputs st.

Definition train (self : t) (inputs outputs : array F) : outcome t :=
  self ← init_network_params self (shape inputs);
  repeat_n (epoch inputs outputs) (Z.to_nat (epochs (base self))) self.

(** The same run, recording the variables with which every batch of
    every epoch is entered. *)
Definition epoch_scan (inputs outputs : array F) (self : t)
    : outcome (list locals * t) :=
  r ← for_each_scan batch_step (iterator (base self) inputs outputs) (mkLocals self zero 1);
  self ← end_of_epoch inputs outputs r.2;
  mret (r.1, self).

Fixpoint epochs_scan (inputs outputs : array F) (n : nat) (self : t)
    : outcome (list (list locals) * t) :=
  match n with
  | O => Returns ([], self)
  | S n' =>
      r ← epoch_scan inputs outputs self;
      rs ← epochs_scan inputs outputs n' r.2;
      mret (r.1 :: rs.1, rs.2)
  end.

Definition train_scan (self : t) (inputs outputs : array F)
    : outcome (list (list locals) * t) :=
  self ← init_network_params self (shape inputs);
  epochs_scan inputs outputs (Z.to_nat (epochs (base self))) self.

End Momentum.
Arguments t F : clear implicits.
End Momentum.

(** ** The properties' vocabulary *)

Section Vocabulary.
Context {F : Type} {scalar : Scalar F} {jax : Jax F}.

(** The parameter sets initialization is to produce for layers of the
    unit counts [us], the first of them fed by [prev] features: the
    weights are drawn with the sub-keys split off [key] one after the
    other and scaled by 0.01, the biases are zero. *)
Fixpoint initial_params (key : Key) (prev : nat) (us : list nat) : list (ParamDict F) :=
  match us with
  | [] => []
  | u :: us' =>
      let '(key', subkey) := split key in
      mkParams (smap (λ x, mul x centi) (normal subkey (u, prev))) (zeros (u, 1))
        :: initial_params key' u us'
  end.

(** The velocity rule on one entry: [(beta * v + (1 - beta * g)) / (1 - beta^t)]. *)
Definition velocity_rule (beta : F) (t : Z) (v g : F) : F :=
  div (add (mul beta v) (sub one (mul beta g))) (sub one (pow beta t)).

(** The same rule on arrays, with the array operators:
    [(beta * v + (1 - beta * g)) / (1 - beta ** t)]. *)
Definition velocity_rule_arrays (beta : F) (t : Z) (v g : array F) : outcome (array F) :=
  s ← aadd (smap (mul beta) v) (smap (sub one) (smap (mul beta) g));
  mret (smap (λ x, div x (sub one (pow beta t))) s).

(** [gs] is the all-zero gradient of the parameters [ps]: one entry
    per layer, of the shapes of that layer's parameters. *)
Definition zero_gradient (ps gs : list (ParamDict F)) : Prop :=
  Forall2 (λ p g, w g = zeros_like (w p) ∧ b g = zeros_like (b p)) ps gs.

Definition rectangular_params (p : ParamDict F) : Prop :=
  rectangular (w p) ∧ rectangular (b p).

(** The velocities [vs] have the shapes of the parameters [ps]. *)
Definition same_shapes (vs ps : list (ParamDict F)) : Prop :=
  Forall2 (λ v p, shape (w v) = shape (w p) ∧ shape (b v) = shape (b p)) vs ps.

End Vocabulary.

(** What a training run never changes in an optimizer. *)
Definition settings {F : Type} (o : Optimizer.t F) :=
  (Optimizer.layers o, Optimizer.loss_fn o, Optimizer.accuracy_fn o,
   Optimizer.epochs o, Optimizer.lr o, Optimizer.iterator o).

(** What the batch loop of [Momentum.train] leaves alone. *)
Definition momentum_frame {F : Type} (m : Momentum.t F) :=
  (settings (Momentum.base m), Optimizer.cost (Momentum.base m),
   Optimizer.accuracy (Momentum.base m), Momentum.beta m,
   length (Optimizer.network_params (Momentum.base m)),
   length (Momentum.momentum_params m)).

Section KeysAndShapes.
Context {F : Type} {scalar : Scalar F} {jax : Jax F}.

(** The sub-key split off for layer [i], when the keys are split one
    after the other starting from [key]. *)
Fixpoint nth_subkey (key : Key) (i : nat) : Key :=
  match i with
  | O => (split key).2
  | S i' => nth_subkey (split key).1 i'
  end.

(** The number of inputs of layer [i]: the feature count [n0] for the
    first layer, the units of the layer before for the others. *)
Definition prev_units (n0 : nat) (us : list nat) (i : nat) : nat :=
  match i with
  | O => n0
  | S j => default 0 (us !! j)
  end.

End KeysAndShapes.

(** The value an outcome returned, or [d] if it raised. *)
Definition returned {A : Type} (d : A) (m : outcome A) : A :=
  match m with
  | Returns a => a
  | Raises _ => d
  end.

(** ** A concrete setting: exact rational arithmetic *)

#[export] Instance Qc_scalar : Scalar Qc := {|
  zero := 0%Qc;
  one := 1%Qc;
  centi := Q2Qc (1 # 100);
  add := Qcplus;
  sub := Qcminus;
  mul := Qcmult;
  div := Qcdiv;
  pow := λ x n,
    if decide (0 ≤ n)%Z then Qcpower x (Z.to_nat n)
    else Qcinv (Qcpower x (Z.to_nat (- n)))
|}.

(** A generator with integers as keys; the [i, j] entry drawn for a key
    [k] is [k + i + 2j]. *)
Definition sample_normal (k : Z) (s : nat * nat) : array Qc :=
  Arr s.2 (map (λ i, map (λ j, Q2Qc (inject_Z (k + Z.of_nat i + 2 * Z.of_nat j)))
                         (seq 0 s.2))
               (seq 0 s.1)).

(** A gradient that is zero everywhere. *)
Definition flat_grad (cost : list (ParamDict Qc) → array Qc → array Qc → outcome Qc)
    (ps : list (ParamDict Qc)) (x y : array Qc) : outcome (list (ParamDict Qc)) :=
  _ ← cost ps x y;
  mret (map (λ p, mkParams (zeros_like (w p)) (zeros_like (b p))) ps).

(** A gradient that is the parameters themselves (that of half the sum
    of their squares). *)
Definition ridge_grad (cost : list (ParamDict Qc) → array Qc → array Qc → outcome Qc)
    (ps : list (ParamDict Qc)) (x y : array Qc) : outcome (list (ParamDict Qc)) :=
  _ ← cost ps x y;
  mret ps.

Definition flat_jax : Jax Qc := {|
  Key := Z;
  PRNGKey := λ seed, seed;
  split := λ k, (2 * k + 1, 2 * k + 2)%Z;
  normal := sample_normal;
  grad := flat_grad;
  jit := λ f, f
|}.

Definition ridge_jax : Jax Qc := {|
  Key := Z;
  PRNGKey := λ seed, seed;
  split := λ k, (2 * k + 1, 2 * k + 2)%Z;
  normal := sample_normal;
  grad := ridge_grad;
  jit := λ f, f
|}.

(** The columns [lo, lo + n) of an array. *)
Definition slice_columns {F : Type} (lo n : nat) (a : array F) : array F :=
  Arr (length (take n (drop lo (replicate (ncols a) ()))))
      (map (λ r, take n (drop lo r)) (rows a)).

(** Mini-batches of [bs] consecutive examples (columns). *)
#[export] Instance column_batches {F : Type} : Data F := {|
  BatchIterator := λ bs x y,
    let n := Z.to_nat bs in
    map (λ k, mkBatch (slice_columns (k * n) n x) (slice_columns (k * n) n y))
        (seq 0 (Nat.div (ncols x + n - 1) n))
|}.

Definition identity_layer (u : nat) : FC Qc := mkFC u (λ z, z).

(** The sum of all entries of the prediction; the second argument is
    not looked at. *)
Definition sum_entries (predictions outputs : array Qc) : Qc :=
  foldl Qcplus 0%Qc (concat (rows predictions)).

Definition two_layers : list (FC Qc) := [identity_layer 2; identity_layer 1].

(** Optimizers as their constructors leave them: two epochs, learning
    rate 1/10, batches of two examples; [beta] is 1/2. *)
Definition fresh_sgd : Optimizer.t Qc :=
  Optimizer.mk two_layers sum_entries sum_entries 2 (Q2Qc (1 # 10)) (BatchIterator 2)
               [] [] [].
Definition fresh_momentum : Momentum.t Qc :=
  Momentum.mk fresh_sgd (Q2Qc (1 # 2)) [].
Definition no_layers : Optimizer.t Qc :=
  Optimizer.mk [] sum_entries sum_entries 2 (Q2Qc (1 # 10)) (BatchIterator 2) [] [] [].

(** Four examples of one feature each, and their targets. *)
Definition four_inputs : array Qc :=
  Arr 4 [[1%Qc; Q2Qc 2; Q2Qc 3; Q2Qc 4]].
Definition four_outputs : array Qc :=
  Arr 4 [[0%Qc; 1%Qc; 0%Qc; 1%Qc]].

(** The first mini-batch of the four examples. *)
Definition first_batch : Batch Qc :=
  mkBatch (slice_columns 0 2 four_inputs) (slice_columns 0 2 four_outputs).

(** [fresh_sgd] and [fresh_momentum] once initialized for the four
    examples; the generator is the same in both concrete settings. *)
Definition initialized_sgd : Optimizer.t Qc :=
  returned fresh_sgd
    (Optimizer.init_network_params (jax := flat_jax) fresh_sgd (shape four_inputs)).
Definition initialized_momentum : Momentum.t Qc :=
  returned fresh_momentum
    (Momentum.init_network_params (jax := flat_jax) fresh_momentum (shape four_inputs)).

(** The variables with which the first epoch of SGD enters its first
    batch, and what they are after that batch when the gradient is the
    parameters themselves. *)
Definition sgd_entry : SGD.locals := SGD.mkLocals initialized_sgd 0%Qc.
Definition sgd_after_batch : SGD.locals :=
  returned sgd_entry (SGD.batch_step (jax := ridge_jax) sgd_entry first_batch).

(** The optimizer after one epoch of SGD with the zero gradient. *)
Definition sgd_after_flat_epoch : Optimizer.t Qc :=
  returned initialized_sgd
    (SGD.epoch (jax := flat_jax) four_inputs four_outputs initialized_sgd).

(** A whole run of Momentum over the four examples, two epochs of two
    batches, with the variables every batch was entered with. *)
Definition momentum_run : list (list Momentum.locals) * Momentum.t Qc :=
  returned ([], fresh_momentum)
    (Momentum.train_scan (jax := ridge_jax) fresh_momentum four_inputs four_outputs).

(** Two runs of SGD on one optimizer, one after the other. *)
Definition sgd_first_run : Optimizer.t Qc :=
  returned fresh_sgd (SGD.train (jax := ridge_jax) fresh_sgd four_inputs four_outputs).
Definition sgd_second_run : Optimizer.t Qc :=
  returned fresh_sgd (SGD.train (jax := ridge_jax) sgd_first_run four_inputs four_outputs).
Definition momentum_first_run : Momentum.t Qc :=
  returned fresh_momentum
    (Momentum.train (jax := ridge_jax) fresh_momentum four_inputs four_outputs).

(** The entry [0, 0] of the first layer's weight velocity, and of its
    weights, as fractions. *)
Definition first_velocity (m : Momentum.t Qc) : option Q :=
  v ← Momentum.momentum_params m !! 0; this <$> entry (w v) 0 0.
Definition first_weight (m : Momentum.t Qc) : option Q :=
  p ← Optimizer.network_params (Momentum.base m) !! 0; this <$> entry (w p) 0 0.

(** The same for Momentum. *)
Definition momentum_entry : Momentum.locals := Momentum.mkLocals initialized_momentum 0%Qc 1.
Definition momentum_after_batch : Momentum.locals :=
  returned momentum_entry (Momentum.batch_step (jax := ridge_jax) momentum_entry first_batch).
Definition momentum_after_flat_batch : Momentum.locals :=
  returned momentum_entry (Momentum.batch_step (jax := flat_jax) momentum_entry first_batch).

(** ** Shapes along the layers *)

Section Fitting.
Context {F : Type} {scalar : Scalar F}.

(** The parameter sets [ps] fit layers of the unit counts [us], the
    first of them fed by [prev] features: the weights of a layer of [u]
    units fed by [n] features have the shape [(u, n)], its biases the
    shape [(u, 1)].  Parameter sets beyond the layers are not looked at. *)
Fixpoint fitting (prev : nat) (us : list nat) (ps : list (ParamDict F)) : Prop :=
  match us, ps with
  | [], _ => True
  | u :: us', p :: ps' =>
      shape (w p) = (u, prev) ∧ shape (b p) = (u, 1) ∧ fitting u us' ps'
  | _ :: _, [] => False
  end.

(** The number of rows of what layers of the unit counts [us] put out,
    when fed [prev] rows. *)
Fixpoint output_units (prev : nat) (us : list nat) : nat :=
  match us with
  | [] => prev
  | u :: us' => output_units u us'
  end.

End Fitting.

(** What the gradient function is expected to do: it is defined where
    the cost is, and its gradients have the shapes of the parameters. *)
Definition gradient_contract {F : Type} {scalar : Scalar F} {jax : Jax F} : Prop :=
  ∀ (o : Optimizer.t F) ps bx by_ c,
    Optimizer.compute_cost o ps bx by_ = Returns c →
    ∃ gs, Optimizer.grad_fn o ps bx by_ = Returns gs ∧ same_shapes gs ps.


(** Optimizers constructed with [epochs = 0]. *)
Definition idle_sgd : Optimizer.t Qc :=
  Optimizer.mk two_layers sum_entries sum_entries 0 (Q2Qc (1 # 10)) (BatchIterator 2)
               [] [] [].
Definition idle_momentum : Momentum.t Qc :=
  Momentum.mk idle_sgd (Q2Qc (1 # 2)) [].

(** * Properties *)

(** ** The exception monad and the loops *)

Lemma bind_Returns {A B : Type} (m : outcome A) (k : A → outcome B) (y : B) :
  m ≫= k = Returns y ↔ ∃ x, m = Returns x ∧ k x = Returns y.
Proof.
  destruct m as [a|e]; simpl; split.
  - intros Hk. by exists a.
  - by intros (x & [= <-] & Hk).
  - intros [=].
  - by intros (x & [=] & _).
Qed.

Lemma py_index_Returns {A : Type} (xs : list A) (i : nat) (x : A) :
  py_index xs i = Returns x ↔ xs !! i = Some x.
Proof. unfold py_index. destruct (xs !! i); split; congruence. Qed.

(** Turns a hypothesis saying that a sequence of calls returned into
    one hypothesis per call. *)
Ltac returns_inv H :=
  repeat match type of H with
    | _ ≫= _ = Returns _ =>
        let x := fresh "x" in
        let Hx := fresh "Hx" in
        apply bind_Returns in H as (x & Hx & H)
    | mret _ = Returns _ => injection H as H
    | Returns _ = Returns _ => injection H as H
    end.

Lemma for_each_scan_final {A S : Type} (body : S → A → outcome S) (xs : list A) (s : S) :
  for_each body xs s = snd <$> for_each_scan body xs s.
Proof.
  revert s. induction xs as [|x xs IH]; intros s; simpl; [done|].
  destruct (body s x) as [s'|e]; simpl; [|done].
  rewrite IH. by destruct (for_each_scan body xs s').
Qed.

(** The [k]-th recorded state is the one the loop reaches on the first
    [k] elements. *)
Lemma for_each_scan_lookup {A S : Type} (body : S → A → outcome S) (xs : list A)
    (s : S) (r : list S * S) (k : nat) (sk : S) :
  for_each_scan body xs s = Returns r →
  r.1 !! k = Some sk →
  k < length xs ∧ for_each body (take k xs) s = Returns sk.
Proof.
  revert s r k. induction xs as [|x xs IH]; intros s r k Hscan Hk; simpl in *.
  - injection Hscan as <-. by destruct k.
  - returns_inv Hscan. subst r. destruct k as [|k]; simpl in *.
    + injection Hk as <-. split; [lia | done].
    + destruct (IH _ _ _ Hx0 Hk) as [Hlt Hrun]. split; [lia|].
      by rewrite Hx.
Qed.

Lemma for_each_scan_length {A S : Type} (body : S → A → outcome S) (xs : list A)
    (s : S) (r : list S * S) :
  for_each_scan body xs s = Returns r → length r.1 = length xs.
Proof.
  revert s r. induction xs as [|x xs IH]; intros s r Hscan; simpl in *.
  - by injection Hscan as <-.
  - returns_inv Hscan. subst r. simpl. f_equal. by eapply IH.
Qed.

Lemma repeat_n_add {S : Type} (body : S → outcome S) (m n : nat) (s : S) :
  repeat_n body (m + n) s = repeat_n body m s ≫= repeat_n body n.
Proof.
  revert s. induction m as [|m IH]; intros s; simpl; [done|].
  destruct (body s) as [s'|e]; simpl; [apply IH | done].
Qed.

(** A loop whose body keeps a quantity keeps it. *)
Lemma for_each_preserves {A S V : Type} (body : S → A → outcome S) (f : S → V)
    (xs : list A) (s s' : S) :
  (∀ s s' x, body s x = Returns s' → f s' = f s) →
  for_each body xs s = Returns s' → f s' = f s.
Proof.
  intros Hbody. revert s. induction xs as [|x xs IH]; intros s Hrun; simpl in *.
  - by injection Hrun as <-.
  - returns_inv Hrun. rewrite (IH _ Hrun). by eapply Hbody.
Qed.

Lemma repeat_n_preserves {S V : Type} (body : S → outcome S) (f : S → V)
    (n : nat) (s s' : S) :
  (∀ s s', body s = Returns s' → f s' = f s) →
  repeat_n body n s = Returns s' → f s' = f s.
Proof.
  intros Hbody. revert s. induction n as [|n IH]; intros s Hrun; simpl in *.
  - by injection Hrun as <-.
  - returns_inv Hrun. rewrite (IH _ Hrun). by eapply Hbody.
Qed.

(** A loop whose body appends one entry to a history appends as many
    entries as it has iterations. *)
Lemma repeat_n_history {S V : Type} (body : S → outcome S) (h : S → list V)
    (n : nat) (s s' : S) :
  (∀ s s', body s = Returns s' → ∃ v, h s' = h s ++ [v]) →
  repeat_n body n s = Returns s' →
  ∃ vs, length vs = n ∧ h s' = h s ++ vs.
Proof.
  intros Hbody. revert s. induction n as [|n IH]; intros s Hrun; simpl in *.
  - injection Hrun as <-. exists []. by rewrite app_nil_r.
  - returns_inv Hrun. destruct (Hbody _ _ Hx) as [v Hv].
    destruct (IH _ Hrun) as (vs & Hlen & Hvs). exists (v :: vs). split.
    + simpl. by f_equal.
    + by rewrite Hvs, Hv, <- app_assoc.
Qed.

Lemma for_each_ext_in {A S : Type} (body body' : S → A → outcome S) (xs : list A) (s : S) :
  (∀ s x, x ∈ xs → body s x = body' s x) →
  for_each body xs s = for_each body' xs s.
Proof.
  revert s. induction xs as [|x xs IH]; intros s Hext; simpl; [done|].
  rewrite Hext by apply list_elem_of_here.
  destruct (body' s x) as [s'|e]; simpl; [|done].
  apply IH. intros s0 x0 Hin. apply Hext. by apply list_elem_of_further.
Qed.

Lemma enumerate_elem_of {A : Type} (xs : list A) (i : nat) (x : A) :
  (i, x) ∈ enumerate xs → xs !! i = Some x.
Proof.
  intros Hin. apply list_elem_of_lookup in Hin as [k Hk].
  unfold enumerate in Hk. apply lookup_zip_with_Some in Hk as (j & y & [= -> ->] & Hj & Hy).
  apply lookup_seq in Hj as [-> _]. done.
Qed.

(** ** Initialization and evaluation *)

Section OptimizerFacts.
Context {F : Type} {scalar : Scalar F} {jax : Jax F} {data : Data F}.
Import Optimizer.

Lemma set_network_params_id (self : Optimizer.t F) :
  set_network_params (network_params self) self = self.
Proof. by destruct self. Qed.

(** The layers still to be initialized are [xs], those done are [pre];
    [prev] is the number of inputs of the first layer of [xs]. *)
Lemma init_layers_from (s : nat * nat) (xs pre : list (FC F)) (key : Key)
    (self : Optimizer.t F) (prev : nat) :
  layers self = pre ++ xs →
  match pre !! pred (length pre) with
  | None => prev = s.1
  | Some l => prev = units l
  end →
  snd <$> for_each (init_layer s) (zip (seq (length pre) (length xs)) xs) (key, self)
  = Returns (set_network_params
               (network_params self ++ initial_params key prev (map units xs)) self).
Proof.
  revert pre key self prev.
  induction xs as [|x xs IH]; intros pre key self prev Hlayers Hprev; simpl.
  - by rewrite app_nil_r, set_network_params_id.
  - destruct (split key) as [key' subkey] eqn:Hsplit.
    assert ((if decide (length pre ≠ 0)
             then units <$> py_index (layers self) (length pre - 1)
             else mret s.1) = Returns prev) as ->.
    { destruct (decide (length pre ≠ 0)) as [Hne|Heq].
      - unfold py_index.
        rewrite Hlayers, lookup_app_l by lia.
        replace (length pre - 1) with (pred (length pre)) by lia.
        destruct (pre !! pred (length pre)) as [l|] eqn:Hl; simpl.
        + by rewrite Hprev.
        + apply lookup_ge_None in Hl. lia.
      - destruct pre; simpl in *; [by rewrite Hprev | lia]. }
    simpl.
    specialize (IH (pre ++ [x]) key'
      (set_network_params
         (network_params self
            ++ [mkParams (smap (λ y, mul y centi) (normal subkey (units x, prev)))
                         (zeros (units x, 1))]) self) (units x)).
    rewrite length_app in IH. simpl in IH.
    replace (length pre + 1) with (S (length pre)) in IH by lia.
    rewrite IH.
    + simpl. by rewrite <- app_assoc.
    + simpl. by rewrite Hlayers, <- app_assoc.
    + simpl. rewrite lookup_app_r by lia.
      by replace (length pre - length pre) with 0 by lia.
Qed.

(** What [init_network_params] does: it always returns, and what it
    returns is the object with the initial parameters of its layers
    added behind the parameters it already held. *)
Lemma init_network_params_spec (self : Optimizer.t F) (s : nat * nat) :
  init_network_params self s
  = Returns (set_network_params
               (network_params self
                  ++ initial_params (PRNGKey 0) s.1 (map units (layers self))) self).
Proof.
  unfold init_network_params, enumerate.
  by apply (init_layers_from s (layers self) []).
Qed.

Lemma initial_params_length (key : Key) (prev : nat) (us : list nat) :
  length (initial_params key prev us) = length us.
Proof.
  revert key prev. induction us as [|u us IH]; intros key prev; simpl; [done|].
  destruct (split key). simpl. by rewrite IH.
Qed.

(** Forward evaluation reads one parameter set per layer, the first
    [len(self.layers)] of the list it is given. *)
Lemma compute_predictions_take (self : Optimizer.t F) (params : list (ParamDict F))
    (x : array F) :
  compute_predictions self params x
  = compute_predictions self (take (length (layers self)) params) x.
Proof.
  unfold compute_predictions. apply for_each_ext_in.
  intros a [i layer] Hin. apply enumerate_elem_of in Hin.
  unfold forward_layer, py_index.
  by rewrite lookup_take_lt by by eapply lookup_lt_Some.
Qed.

End OptimizerFacts.

(** ** Arrays *)

Section ArrayFacts.
Context {F : Type} {scalar : Scalar F}.

Lemma bdim_same (n : nat) : bdim n n = Returns n.
Proof. unfold bdim. by rewrite decide_True. Qed.

Lemma stretch_same {A : Type} (n : nat) (l : list A) : stretch n n l = l.
Proof. unfold stretch. by rewrite decide_True. Qed.

(** On arrays of one shape an element-wise operator pairs the entries
    off; nothing is stretched. *)
Lemma broadcast2_same_shape (f : F → F → F) (a c : array F) :
  shape a = shape c →
  broadcast2 f a c = Returns (Arr (ncols a) (zip_with (zip_with f) (rows a) (rows c))).
Proof.
  intros [= Hrows Hcols]. unfold broadcast2.
  rewrite <- Hrows, <- Hcols, !bdim_same. simpl.
  rewrite !stretch_same. do 2 f_equal.
  rewrite <- (map_id (rows a)) at 2. rewrite <- (map_id (rows c)) at 2.
  f_equal; apply map_ext; intros r; apply stretch_same.
Qed.

Lemma entry_smap (f : F → F) (a : array F) (i j : nat) :
  entry (smap f a) i j = f <$> entry a i j.
Proof.
  unfold entry, smap. simpl. rewrite list_lookup_fmap.
  destruct (rows a !! i) as [r|]; simpl; [|done]. apply list_lookup_fmap.
Qed.

Lemma entry_zip_with (f : F → F → F) (n : nat) (ra rc : list (list F))
    (i j : nat) (x y : F) :
  entry (Arr n ra) i j = Some x →
  entry (Arr n rc) i j = Some y →
  entry (Arr n (zip_with (zip_with f) ra rc)) i j = Some (f x y).
Proof.
  unfold entry. simpl. intros Hx Hy. rewrite lookup_zip_with.
  destruct (ra !! i) as [r|]; simpl in *; [|done].
  destruct (rc !! i) as [r'|]; simpl in *; [|done].
  rewrite lookup_zip_with. by rewrite Hx, Hy.
Qed.

Lemma entry_broadcast2 (f : F → F → F) (a c : array F) (i j : nat) (x y : F) :
  shape a = shape c →
  entry a i j = Some x →
  entry c i j = Some y →
  ∃ r, broadcast2 f a c = Returns r ∧ entry r i j = Some (f x y).
Proof.
  intros Hshape Hx Hy. eexists. split; [by apply broadcast2_same_shape|].
  destruct a as [n ra], c as [n' rc]. injection Hshape as _ <-.
  by apply entry_zip_with.
Qed.

Lemma shape_smap (f : F → F) (a : array F) : shape (smap f a) = shape a.
Proof. unfold shape, nrows, smap. simpl. by rewrite length_map. Qed.

Lemma shape_zeros (s : nat * nat) : shape (zeros s) = s.
Proof. destruct s. unfold shape, nrows, zeros. simpl. by rewrite length_replicate. Qed.

Lemma smap_zeros (f : F → F) (s : nat * nat) :
  f zero = zero → smap f (zeros s) = zeros s.
Proof.
  intros Hf. unfold smap, zeros. simpl. f_equal.
  assert (∀ m, map f (replicate m zero) = replicate m zero) as Hrow.
  { induction m as [|m IHm]; simpl; [done|]. by rewrite IHm, Hf. }
  induction s.1 as [|n IH]; simpl; [done|]. by rewrite IH, Hrow.
Qed.

Lemma zip_with_sub_zero (r : list F) :
  (∀ x, sub x zero = x) →
  zip_with sub r (replicate (length r) zero) = r.
Proof.
  intros Hsub. induction r as [|x r IH]; simpl; [done|]. by rewrite Hsub, IH.
Qed.

(** Subtracting the zero array of its shape leaves a rectangular array
    as it is. *)
Lemma asub_zeros (a : array F) :
  (∀ x, sub x zero = x) →
  rectangular a →
  asub a (zeros_like a) = Returns a.
Proof.
  intros Hsub Hrect. unfold asub, zeros_like.
  rewrite broadcast2_same_shape by by rewrite shape_zeros.
  destruct a as [n ra]. unfold rectangular, shape, nrows in *. simpl in *.
  do 2 f_equal. induction Hrect as [|r ra Hr Hrect IH]; simpl; [done|].
  rewrite IH. f_equal. rewrite <- Hr. by apply zip_with_sub_zero.
Qed.

End ArrayFacts.

(** ** The SGD update *)

Section SGDFacts.
Context {F : Type} {scalar : Scalar F} {jax : Jax F} {data : Data F}.
Import Optimizer.

(** One run of the layer loop's body replaces the parameter set at
    its index by the updated one and touches nothing else. *)
Lemma SGD_update_layer_spec (self self' : Optimizer.t F) (i : nat) (g : ParamDict F) :
  SGD.update_layer self (i, g) = Returns self' →
  ∃ p w' b',
    network_params self !! i = Some p ∧
    asub (w p) (smap (mul (lr self)) (w g)) = Returns w' ∧
    asub (b p) (smap (mul (lr self)) (b g)) = Returns b' ∧
    self' = set_network_params (<[i := mkParams w' b']> (network_params self)) self.
Proof.
  unfold SGD.update_layer. intros Hrun. returns_inv Hrun.
  apply py_index_Returns in Hx. simpl in Hx1.
  apply py_index_Returns in Hx1.
  rewrite list_lookup_insert_eq in Hx1 by by eapply lookup_lt_Some.
  injection Hx1 as <-. simpl in *.
  exists x, x0, x2. repeat split; try done.
  rewrite <- Hrun. by rewrite list_insert_insert_eq.
Qed.

(** The layer loop over the gradients [gs], entered at index [k]. *)
Lemma SGD_update_layers_from (gs : list (ParamDict F)) (k : nat)
    (self self' : Optimizer.t F) :
  for_each SGD.update_layer (zip (seq k (length gs)) gs) self = Returns self' →
  ∃ ps, self' = set_network_params ps self ∧
        length ps = length (network_params self) ∧
        (∀ j, (j < k ∨ k + length gs ≤ j) → ps !! j = network_params self !! j) ∧
        (∀ j g, gs !! j = Some g →
           ∃ p w' b',
             network_params self !! (k + j) = Some p ∧
             asub (w p) (smap (mul (lr self)) (w g)) = Returns w' ∧
             asub (b p) (smap (mul (lr self)) (b g)) = Returns b' ∧
             ps !! (k + j) = Some (mkParams w' b')).
Proof.
  revert k self. induction gs as [|g gs IH]; intros k self Hrun; simpl in *.
  - injection Hrun as <-. exists (network_params self).
    rewrite set_network_params_id. repeat split; done.
  - returns_inv Hrun.
    apply SGD_update_layer_spec in Hx as (p & w' & b' & Hp & Hw & Hb & ->).
    apply IH in Hrun as (ps & -> & Hlen & Hout & Hin). simpl in *.
    rewrite length_insert in Hlen.
    exists ps. repeat split; try done.
    + intros j Hj. rewrite Hout by lia. apply list_lookup_insert_ne. lia.
    + intros [|j] g' Hg'; simpl in *.
      * injection Hg' as <-. exists p, w', b'.
        rewrite Nat.add_0_r. repeat split; try done.
        rewrite Hout by lia. apply list_lookup_insert_eq. by eapply lookup_lt_Some.
      * destruct (Hin j g' Hg') as (p' & w'' & b'' & Hp' & Hw' & Hb' & Hps).
        rewrite list_lookup_insert_ne in Hp' by lia.
        replace (k + S j) with (S k + j) by lia.
        by exists p', w'', b''.
Qed.

Lemma SGD_update_layers_spec (gs : list (ParamDict F)) (self self' : Optimizer.t F) :
  for_each SGD.update_layer (enumerate gs) self = Returns self' →
  ∃ ps, self' = set_network_params ps self ∧
        length ps = length (network_params self) ∧
        (∀ j, length gs ≤ j → ps !! j = network_params self !! j) ∧
        (∀ j g, gs !! j = Some g →
           ∃ p w' b',
             network_params self !! j = Some p ∧
             asub (w p) (smap (mul (lr self)) (w g)) = Returns w' ∧
             asub (b p) (smap (mul (lr self)) (b g)) = Returns b' ∧
             ps !! j = Some (mkParams w' b')).
Proof.
  intros Hrun. apply SGD_update_layers_from in Hrun as (ps & -> & Hlen & Hout & Hin).
  exists ps. repeat split; try done.
  intros j Hj. apply Hout. lia.
Qed.

End SGDFacts.

Lemma for_each_invariant {A S : Type} (P : S → Prop) (body : S → A → outcome S)
    (xs : list A) (s s' : S) :
  (∀ s s' x, x ∈ xs → P s → body s x = Returns s' → P s') →
  P s → for_each body xs s = Returns s' → P s'.
Proof.
  revert s. induction xs as [|x xs IH]; intros s Hbody Hs Hrun; simpl in *.
  - by injection Hrun as <-.
  - returns_inv Hrun. eapply IH; [|..|exact Hrun].
    + intros s1 s2 x1 Hin. apply Hbody. by apply list_elem_of_further.
    + eapply Hbody; [apply list_elem_of_here | exact Hs | exact Hx].
Qed.

Section SGDRun.
Context {F : Type} {scalar : Scalar F} {jax : Jax F} {data : Data F}.
Import Optimizer.

Lemma SGD_batch_step_spec (st st' : SGD.locals) (batch : Batch F) :
  SGD.batch_step st batch = Returns st' →
  ∃ gs ps c,
    grad_fn (SGD.self_ st) (network_params (SGD.self_ st)) (inputs batch) (outputs batch)
      = Returns gs ∧
    for_each SGD.update_layer (enumerate gs) (SGD.self_ st)
      = Returns (set_network_params ps (SGD.self_ st)) ∧
    SGD.self_ st' = set_network_params ps (SGD.self_ st) ∧
    length ps = length (network_params (SGD.self_ st)) ∧
    compute_cost (SGD.self_ st') ps (inputs batch) (outputs batch) = Returns c ∧
    SGD.loss st' = add (SGD.loss st) c.
Proof.
  unfold SGD.batch_step. intros Hrun. returns_inv Hrun. subst st'. simpl.
  destruct (SGD_update_layers_spec _ _ _ Hx0) as (ps & -> & Hlen & _).
  by exists x, ps, x1.
Qed.

Lemma SGD_batch_step_frame (st st' : SGD.locals) (batch : Batch F) :
  SGD.batch_step st batch = Returns st' →
  settings (SGD.self_ st') = settings (SGD.self_ st) ∧
  cost (SGD.self_ st') = cost (SGD.self_ st) ∧
  accuracy (SGD.self_ st') = accuracy (SGD.self_ st) ∧
  length (network_params (SGD.self_ st')) = length (network_params (SGD.self_ st)).
Proof.
  intros Hrun.
  apply SGD_batch_step_spec in Hrun as (gs & ps & c & _ & _ & -> & Hlen & _).
  by destruct (SGD.self_ st).
Qed.

Lemma SGD_batches_frame (st st' : SGD.locals) (batches : list (Batch F)) :
  for_each SGD.batch_step batches st = Returns st' →
  settings (SGD.self_ st') = settings (SGD.self_ st) ∧
  cost (SGD.self_ st') = cost (SGD.self_ st) ∧
  accuracy (SGD.self_ st') = accuracy (SGD.self_ st) ∧
  length (network_params (SGD.self_ st')) = length (network_params (SGD.self_ st)).
Proof.
  intros Hrun.
  apply (for_each_preserves SGD.batch_step
           (λ st, (settings (SGD.self_ st), cost (SGD.self_ st),
                   accuracy (SGD.self_ st), length (network_params (SGD.self_ st)))))
    in Hrun.
  - split; [|split; [|split]].
    + exact (f_equal (λ q, q.1.1.1) Hrun).
    + exact (f_equal (λ q, q.1.1.2) Hrun).
    + exact (f_equal (λ q, q.1.2) Hrun).
    + exact (f_equal snd Hrun).
  - intros s s' x Hstep.
    apply SGD_batch_step_frame in Hstep as (H1 & H2 & H3 & H4). congruence.
Qed.

(** An epoch appends the loss its batch loop accumulated from zero to
    [cost] and the accuracy over the data set it is given to
    [accuracy]. *)
Lemma SGD_epoch_spec (x y : array F) (o o' : Optimizer.t F) :
  SGD.epoch x y o = Returns o' →
  ∃ st acc,
    for_each SGD.batch_step (iterator o x y) (SGD.mkLocals o zero) = Returns st ∧
    cost o' = cost o ++ [SGD.loss st] ∧
    evaluate o' x y = Returns acc ∧
    accuracy o' = accuracy o ++ [acc] ∧
    network_params o' = network_params (SGD.self_ st) ∧
    settings o' = settings o.
Proof.
  unfold SGD.epoch. intros Hrun. returns_inv Hrun. subst o'.
  destruct (SGD_batches_frame _ _ _ Hx) as (Hset & Hcost & Hacc & Hlen). simpl in *.
  exists x0, x1. repeat split; try done.
  - by rewrite Hcost.
  - by rewrite Hacc.
Qed.

Lemma SGD_epoch_frame (x y : array F) (o o' : Optimizer.t F) :
  SGD.epoch x y o = Returns o' →
  settings o' = settings o ∧
  length (network_params o') = length (network_params o).
Proof.
  intros Hrun. apply SGD_epoch_spec in Hrun as (st & acc & Hloop & _ & _ & _ & Hps & Hset).
  split; [done|]. rewrite Hps.
  by destruct (SGD_batches_frame _ _ _ Hloop) as (_ & _ & _ & ->).
Qed.

End SGDRun.

(** ** The Momentum update *)

Section MomentumFacts.
Context {F : Type} {scalar : Scalar F} {jax : Jax F} {data : Data F}.
Import Optimizer.

(** On arrays of one shape the rule is the rule on every entry. *)
Lemma velocity_rule_arrays_entry (beta : F) (t : Z) (v g v' : array F)
    (i j : nat) (x y : F) :
  velocity_rule_arrays beta t v g = Returns v' →
  shape v = shape g →
  entry v i j = Some x →
  entry g i j = Some y →
  entry v' i j = Some (velocity_rule beta t x y).
Proof.
  unfold velocity_rule_arrays. intros Hrun Hshape Hx Hy. returns_inv Hrun. subst v'.
  destruct (entry_broadcast2 add (smap (mul beta) v)
              (smap (sub one) (smap (mul beta) g)) i j (mul beta x)
              (sub one (mul beta y))) as (r & Hr & Hentry).
  - by rewrite !shape_smap.
  - by rewrite entry_smap, Hx.
  - by rewrite !entry_smap, Hy.
  - unfold aadd in Hx0. rewrite Hr in Hx0. injection Hx0 as <-.
    by rewrite entry_smap, Hentry.
Qed.

(** One run of the layer loop's body: the velocity at its index is
    replaced by the rule's value, and the parameters at its index
    then move by [lr] times that new velocity. *)
Lemma Momentum_update_layer_spec (t : Z) (self self' : Momentum.t F) (i : nat)
    (g : ParamDict F) :
  Momentum.update_layer t self (i, g) = Returns self' →
  ∃ v p vw vb w' b',
    Momentum.momentum_params self !! i = Some v ∧
    network_params (Momentum.base self) !! i = Some p ∧
    velocity_rule_arrays (Momentum.beta self) t (w v) (w g) = Returns vw ∧
    velocity_rule_arrays (Momentum.beta self) t (b v) (b g) = Returns vb ∧
    asub (w p) (smap (mul (lr (Momentum.base self))) vw) = Returns w' ∧
    asub (b p) (smap (mul (lr (Momentum.base self))) vb) = Returns b' ∧
    self' = Momentum.mk
              (set_network_params
                 (<[i := mkParams w' b']> (network_params (Momentum.base self)))
                 (Momentum.base self))
              (Momentum.beta self)
              (<[i := mkParams vw vb]> (Momentum.momentum_params self)).
Proof.
  unfold Momentum.update_layer. intros Hrun.
  apply bind_Returns in Hrun as (v & Hv & Hrun). apply py_index_Returns in Hv.
  apply bind_Returns in Hrun as (sw & Hsw & Hrun). simpl in Hrun.
  apply bind_Returns in Hrun as (v1 & Hv1 & Hrun). apply py_index_Returns in Hv1.
  rewrite list_lookup_insert_eq in Hv1 by by eapply lookup_lt_Some.
  injection Hv1 as <-. simpl in Hrun.
  apply bind_Returns in Hrun as (sb & Hsb & Hrun). simpl in Hrun.
  apply bind_Returns in Hrun as (p & Hp & Hrun). apply py_index_Returns in Hp.
  apply bind_Returns in Hrun as (v2 & Hv2 & Hrun). apply py_index_Returns in Hv2.
  rewrite list_insert_insert_eq in Hv2, Hrun.
  rewrite list_lookup_insert_eq in Hv2 by by eapply lookup_lt_Some.
  injection Hv2 as <-. simpl in Hrun.
  apply bind_Returns in Hrun as (w' & Hw' & Hrun). simpl in Hrun.
  apply bind_Returns in Hrun as (p1 & Hp1 & Hrun). apply py_index_Returns in Hp1.
  rewrite list_lookup_insert_eq in Hp1 by by eapply lookup_lt_Some.
  injection Hp1 as <-. simpl in Hrun.
  apply bind_Returns in Hrun as (v3 & Hv3 & Hrun). apply py_index_Returns in Hv3.
  rewrite list_lookup_insert_eq in Hv3 by by eapply lookup_lt_Some.
  injection Hv3 as <-. simpl in Hrun.
  apply bind_Returns in Hrun as (b' & Hb' & Hrun). injection Hrun as <-.
  eexists v, p, _, _, w', b'. unfold velocity_rule_arrays.
  rewrite Hsw, Hsb. simpl. repeat split; try done.
  unfold Momentum.set_base. simpl. by rewrite list_insert_insert_eq.
Qed.

(** The layer loop over the gradients [gs], entered at index [k]. *)
Lemma Momentum_update_layers_from (t : Z) (gs : list (ParamDict F)) (k : nat)
    (self self' : Momentum.t F) :
  for_each (Momentum.update_layer t) (zip (seq k (length gs)) gs) self = Returns self' →
  ∃ ps vs,
    self' = Momentum.mk (set_network_params ps (Momentum.base self))
                        (Momentum.beta self) vs ∧
    length ps = length (network_params (Momentum.base self)) ∧
    length vs = length (Momentum.momentum_params self) ∧
    (∀ j, (j < k ∨ k + length gs ≤ j) →
       ps !! j = network_params (Momentum.base self) !! j ∧
       vs !! j = Momentum.momentum_params self !! j) ∧
    (∀ j g, gs !! j = Some g →
       ∃ v p vw vb w' b',
         Momentum.momentum_params self !! (k + j) = Some v ∧
         network_params (Momentum.base self) !! (k + j) = Some p ∧
         velocity_rule_arrays (Momentum.beta self) t (w v) (w g) = Returns vw ∧
         velocity_rule_arrays (Momentum.beta self) t (b v) (b g) = Returns vb ∧
         asub (w p) (smap (mul (lr (Momentum.base self))) vw) = Returns w' ∧
         asub (b p) (smap (mul (lr (Momentum.base self))) vb) = Returns b' ∧
         vs !! (k + j) = Some (mkParams vw vb) ∧
         ps !! (k + j) = Some (mkParams w' b')).
Proof.
  revert k self. induction gs as [|g gs IH]; intros k self Hrun; simpl in *.
  - injection Hrun as <-.
    exists (network_params (Momentum.base self)), (Momentum.momentum_params self).
    rewrite set_network_params_id. destruct self. repeat split; done.
  - apply bind_Returns in Hrun as (self1 & Hstep & Hrun).
    apply Momentum_update_layer_spec in Hstep
      as (v & p & vw & vb & w' & b' & Hv & Hp & Hvw & Hvb & Hw & Hb & ->).
    apply IH in Hrun as (ps & vs & -> & Hlenp & Hlenv & Hout & Hin). simpl in *.
    rewrite length_insert in Hlenp, Hlenv.
    exists ps, vs. repeat split; try done.
    + rewrite (proj1 (Hout j ltac:(lia))). apply list_lookup_insert_ne. lia.
    + rewrite (proj2 (Hout j ltac:(lia))). apply list_lookup_insert_ne. lia.
    + intros [|j] g' Hg'; simpl in *.
      * injection Hg' as <-. exists v, p, vw, vb, w', b'.
        rewrite Nat.add_0_r. repeat split; try done.
        -- rewrite (proj2 (Hout k ltac:(lia))).
           apply list_lookup_insert_eq. by eapply lookup_lt_Some.
        -- rewrite (proj1 (Hout k ltac:(lia))).
           apply list_lookup_insert_eq. by eapply lookup_lt_Some.
      * destruct (Hin j g' Hg')
          as (v1 & p1 & vw1 & vb1 & w1 & b1 & Hv1 & Hp1 & Hvw1 & Hvb1 & Hw1 & Hb1 & Hvs & Hps).
        rewrite list_lookup_insert_ne in Hv1 by lia.
        rewrite list_lookup_insert_ne in Hp1 by lia.
        replace (k + S j) with (S k + j) by lia.
        by exists v1, p1, vw1, vb1, w1, b1.
Qed.

End MomentumFacts.

Section MomentumRun.
Context {F : Type} {scalar : Scalar F} {jax : Jax F} {data : Data F}.
Import Optimizer.

Lemma Momentum_update_layers_spec (t : Z) (gs : list (ParamDict F))
    (self self' : Momentum.t F) :
  for_each (Momentum.update_layer t) (enumerate gs) self = Returns self' →
  ∃ ps vs,
    self' = Momentum.mk (set_network_params ps (Momentum.base self))
                        (Momentum.beta self) vs ∧
    length ps = length (network_params (Momentum.base self)) ∧
    length vs = length (Momentum.momentum_params self) ∧
    (∀ j, length gs ≤ j →
       ps !! j = network_params (Momentum.base self) !! j ∧
       vs !! j = Momentum.momentum_params self !! j) ∧
    (∀ j g, gs !! j = Some g →
       ∃ v p vw vb w' b',
         Momentum.momentum_params self !! j = Some v ∧
         network_params (Momentum.base self) !! j = Some p ∧
         velocity_rule_arrays (Momentum.beta self) t (w v) (w g) = Returns vw ∧
         velocity_rule_arrays (Momentum.beta self) t (b v) (b g) = Returns vb ∧
         asub (w p) (smap (mul (lr (Momentum.base self))) vw) = Returns w' ∧
         asub (b p) (smap (mul (lr (Momentum.base self))) vb) = Returns b' ∧
         vs !! j = Some (mkParams vw vb) ∧
         ps !! j = Some (mkParams w' b')).
Proof.
  intros Hrun.
  apply Momentum_update_layers_from in Hrun as (ps & vs & -> & Hlenp & Hlenv & Hout & Hin).
  exists ps, vs. repeat split; try done; apply Hout; lia.
Qed.

Lemma Momentum_batch_step_spec (st st' : Momentum.locals) (batch : Batch F) :
  Momentum.batch_step st batch = Returns st' →
  ∃ gs c,
    grad_fn (Momentum.base (Momentum.self_ st))
            (network_params (Momentum.base (Momentum.self_ st)))
            (inputs batch) (outputs batch) = Returns gs ∧
    for_each (Momentum.update_layer (Momentum.batch_num st)) (enumerate gs)
             (Momentum.self_ st) = Returns (Momentum.self_ st') ∧
    Momentum.batch_num st' = (Momentum.batch_num st + 1)%Z ∧
    compute_cost (Momentum.base (Momentum.self_ st'))
                 (network_params (Momentum.base (Momentum.self_ st')))
                 (inputs batch) (outputs batch) = Returns c ∧
    Momentum.loss st' = add (Momentum.loss st) c.
Proof.
  unfold Momentum.batch_step. intros Hrun. returns_inv Hrun. subst st'. simpl.
  by exists x, x1.
Qed.

Lemma Momentum_batch_step_frame (st st' : Momentum.locals) (batch : Batch F) :
  Momentum.batch_step st batch = Returns st' →
  momentum_frame (Momentum.self_ st') = momentum_frame (Momentum.self_ st).
Proof.
  intros Hrun.
  apply Momentum_batch_step_spec in Hrun as (gs & c & _ & Hloop & _).
  apply Momentum_update_layers_spec in Hloop as (ps & vs & -> & Hlenp & Hlenv & _).
  unfold momentum_frame. simpl. rewrite Hlenp, Hlenv.
  by destruct (Momentum.base (Momentum.self_ st)).
Qed.

Lemma Momentum_batches_frame (st st' : Momentum.locals) (batches : list (Batch F)) :
  for_each Momentum.batch_step batches st = Returns st' →
  momentum_frame (Momentum.self_ st') = momentum_frame (Momentum.self_ st).
Proof.
  apply (for_each_preserves Momentum.batch_step (λ st, momentum_frame (Momentum.self_ st))).
  intros s s' x. apply Momentum_batch_step_frame.
Qed.

(** In an epoch the [k]-th batch (counted from 0) is entered with
    [batch_num] equal to [k + 1]. *)
Lemma Momentum_batch_num_after (batches : list (Batch F)) (st st' : Momentum.locals) :
  for_each Momentum.batch_step batches st = Returns st' →
  Momentum.batch_num st' = (Momentum.batch_num st + Z.of_nat (length batches))%Z.
Proof.
  revert st. induction batches as [|x xs IH]; intros st Hrun; simpl in *.
  - injection Hrun as <-. lia.
  - returns_inv Hrun. rewrite (IH _ Hrun).
    apply Momentum_batch_step_spec in Hx as (_ & _ & _ & _ & -> & _). lia.
Qed.

Lemma Momentum_end_of_epoch_spec (x y : array F) (st : Momentum.locals)
    (m' : Momentum.t F) :
  Momentum.end_of_epoch x y st = Returns m' →
  ∃ acc,
    cost (Momentum.base m') = cost (Momentum.base (Momentum.self_ st)) ++ [Momentum.loss st] ∧
    evaluate (Momentum.base m') x y = Returns acc ∧
    accuracy (Momentum.base m')
      = accuracy (Momentum.base (Momentum.self_ st)) ++ [acc] ∧
    network_params (Momentum.base m')
      = network_params (Momentum.base (Momentum.self_ st)) ∧
    Momentum.momentum_params m' = Momentum.momentum_params (Momentum.self_ st) ∧
    Momentum.beta m' = Momentum.beta (Momentum.self_ st) ∧
    settings (Momentum.base m') = settings (Momentum.base (Momentum.self_ st)).
Proof.
  unfold Momentum.end_of_epoch. intros Hrun. returns_inv Hrun. subst m'.
  exists x0. by repeat split.
Qed.

(** An epoch appends the loss its batch loop accumulated from zero to
    [cost] and the accuracy over the data set it is given to
    [accuracy]. *)
Lemma Momentum_epoch_spec (x y : array F) (m m' : Momentum.t F) :
  Momentum.epoch x y m = Returns m' →
  ∃ st acc,
    for_each Momentum.batch_step (iterator (Momentum.base m) x y)
             (Momentum.mkLocals m zero 1) = Returns st ∧
    cost (Momentum.base m') = cost (Momentum.base m) ++ [Momentum.loss st] ∧
    evaluate (Momentum.base m') x y = Returns acc ∧
    accuracy (Momentum.base m') = accuracy (Momentum.base m) ++ [acc] ∧
    settings (Momentum.base m') = settings (Momentum.base m) ∧
    Momentum.beta m' = Momentum.beta m ∧
    length (network_params (Momentum.base m')) = length (network_params (Momentum.base m)) ∧
    length (Momentum.momentum_params m') = length (Momentum.momentum_params m).
Proof.
  unfold Momentum.epoch. intros Hrun. returns_inv Hrun.
  pose proof (Momentum_batches_frame _ _ _ Hx) as Hframe. simpl in Hframe.
  apply Momentum_end_of_epoch_spec in Hrun
    as (acc & Hcost & Heval & Hacc & Hps & Hvs & Hbeta & Hset).
  unfold momentum_frame in Hframe.
  exists x0, acc. rewrite Hcost, Hacc, Hset, Hbeta, Hps, Hvs.
  split; [done|].
  split; [exact (f_equal (λ c, c ++ [Momentum.loss x0]) (f_equal (λ q, q.1.1.1.1.2) Hframe))|].
  split; [done|].
  split; [exact (f_equal (λ c, c ++ [acc]) (f_equal (λ q, q.1.1.1.2) Hframe))|].
  split; [exact (f_equal (λ q, q.1.1.1.1.1) Hframe)|].
  split; [exact (f_equal (λ q, q.1.1.2) Hframe)|].
  split; [exact (f_equal (λ q, q.1.2) Hframe) | exact (f_equal snd Hframe)].
Qed.

End MomentumRun.

(** * The claims *)

(** ** Construction *)

(** C4 (as the code has it).  The constructors check nothing: for all
    values of [epochs], [lr], [bs] and [beta] they return, and what they
    return holds the values as given, no parameters and empty histories.
    [SGD] uses the constructor of [Optimizer]. *)
Theorem C4_constructors_accept_every_value {F : Type} {scalar : Scalar F} {data : Data F}
    (layers : list (FC F)) (loss accuracy : array F → array F → F)
    (epochs : Z) (lr : F) (bs : Z) (beta : F) :
  Optimizer.__init__ layers loss accuracy epochs lr bs
    = Returns (Optimizer.mk layers loss accuracy epochs lr (BatchIterator bs) [] [] []) ∧
  Momentum.__init__ layers loss accuracy epochs lr bs beta
    = Returns (Momentum.mk
                 (Optimizer.mk layers loss accuracy epochs lr (BatchIterator bs) [] [] [])
                 beta []).
Proof. done. Qed.

(** C4 fails as stated: a learning rate of 0, a number of epochs of 0
    and a [beta] of 1 are all accepted; nothing is raised. *)
Lemma C4_counterexample :
  (∃ o, Optimizer.__init__ two_layers sum_entries sum_entries 2 0%Qc 32 = Returns o
        ∧ Optimizer.lr o = 0%Qc) ∧
  (∃ o, Optimizer.__init__ two_layers sum_entries sum_entries 0 (Q2Qc (1 # 10)) 32 = Returns o
        ∧ Optimizer.epochs o = 0%Z) ∧
  (∃ m, Momentum.__init__ two_layers sum_entries sum_entries 2 (Q2Qc (1 # 10)) 32 1%Qc
        = Returns m ∧ Momentum.beta m = 1%Qc).
Proof. repeat split; eexists; split; reflexivity. Qed.

(** ** Initialization *)

Section InitialParams.
Context {F : Type} {scalar : Scalar F} {jax : Jax F}.

Lemma initial_params_lookup (key : Key) (prev : nat) (us : list nat) (i : nat)
    (p : ParamDict F) :
  initial_params key prev us !! i = Some p →
  ∃ u, us !! i = Some u ∧
       p = mkParams (smap (λ x, mul x centi)
                          (normal (nth_subkey key i) (u, prev_units prev us i)))
                    (zeros (u, 1)).
Proof.
  revert key prev i. induction us as [|u us IH]; intros key prev i Hp; simpl in *.
  - by destruct i.
  - destruct (split key) as [key' subkey] eqn:Hsplit. destruct i as [|i]; simpl in *.
    + injection Hp as <-. exists u. by rewrite Hsplit.
    + apply IH in Hp as (u' & Hu' & ->). exists u'. split; [done|].
      rewrite Hsplit. simpl. by destruct i.
Qed.

End InitialParams.

(** C5 (as the code has it).  Initialization checks nothing and cannot
    fail: for every layer sequence and every input shape it returns,
    having put one parameter set per layer behind those already held. *)
Theorem C5_init_always_returns {F : Type} {scalar : Scalar F} {jax : Jax F}
    (self : Optimizer.t F) (input_shape : nat * nat) :
  Optimizer.init_network_params self input_shape
    = Returns (Optimizer.set_network_params
                 (Optimizer.network_params self
                    ++ initial_params (PRNGKey 0) input_shape.1
                         (map units (Optimizer.layers self)))
                 self) ∧
  length (initial_params (PRNGKey 0) input_shape.1 (map units (Optimizer.layers self)))
    = length (Optimizer.layers self).
Proof.
  split; [apply init_network_params_spec|].
  by rewrite initial_params_length, length_map.
Qed.

(** C5 fails as stated: with no layers initialization returns the
    object unchanged, and with an input feature count of 0 it returns
    with two parameter sets for two layers. *)
Lemma C5_counterexample :
  Optimizer.init_network_params (jax := flat_jax) no_layers (1, 4) = Returns no_layers ∧
  (λ o, length (Optimizer.network_params o))
    <$> Optimizer.init_network_params (jax := flat_jax) fresh_sgd (0, 4) = Returns 2.
Proof. split; reflexivity. Qed.

(** C7.  Initialization is a function of the seed (always 0), the unit
    counts of the layers and the input feature count: two calls that
    agree on these add the same parameter sets, whatever else the two
    optimizers hold.  The weights of layer [i] are the draw for its
    sub-key and the shape [(units_i, prev_units)], scaled by 0.01; the
    biases are the zero array of shape [(units_i, 1)]. *)
Theorem C7_init_deterministic {F : Type} {scalar : Scalar F} {jax : Jax F}
    (self1 self2 : Optimizer.t F) (s1 s2 : nat * nat) :
  map units (Optimizer.layers self1) = map units (Optimizer.layers self2) →
  s1.1 = s2.1 →
  ∃ fresh,
    Optimizer.init_network_params self1 s1
      = Returns (Optimizer.set_network_params (Optimizer.network_params self1 ++ fresh) self1) ∧
    Optimizer.init_network_params self2 s2
      = Returns (Optimizer.set_network_params (Optimizer.network_params self2 ++ fresh) self2) ∧
    length fresh = length (Optimizer.layers self1) ∧
    ∀ i p, fresh !! i = Some p →
      ∃ u, map units (Optimizer.layers self1) !! i = Some u ∧
           w p = smap (λ x, mul x centi)
                      (normal (nth_subkey (PRNGKey 0) i)
                              (u, prev_units s1.1 (map units (Optimizer.layers self1)) i)) ∧
           b p = zeros (u, 1).
Proof.
  intros Hunits Hshape.
  exists (initial_params (PRNGKey 0) s1.1 (map units (Optimizer.layers self1))).
  split; [apply init_network_params_spec|].
  split; [rewrite Hunits, Hshape; apply init_network_params_spec|].
  split; [by rewrite initial_params_length, length_map|].
  intros i p Hp. apply initial_params_lookup in Hp as (u & Hu & ->). by exists u.
Qed.

(** The same optimizer initialized a second time, for a data set with
    more examples, is given the parameter sets of the first time again. *)
Lemma C7_witness :
  map units (Optimizer.layers fresh_sgd) = map units (Optimizer.layers initialized_sgd) ∧
  (1, 4).1 = (1, 7).1 ∧
  ∃ fresh,
    Optimizer.init_network_params (jax := flat_jax) fresh_sgd (1, 4)
      = Returns (Optimizer.set_network_params
                   (Optimizer.network_params fresh_sgd ++ fresh) fresh_sgd) ∧
    Optimizer.init_network_params (jax := flat_jax) initialized_sgd (1, 7)
      = Returns (Optimizer.set_network_params
                   (Optimizer.network_params initialized_sgd ++ fresh) initialized_sgd) ∧
    length fresh = 2.
Proof.
  assert (map units (Optimizer.layers fresh_sgd)
          = map units (Optimizer.layers initialized_sgd)) as Hunits by reflexivity.
  assert ((1, 4).1 = (1, 7).1) as Hshape by reflexivity.
  split; [exact Hunits|]. split; [exact Hshape|].
  destruct (C7_init_deterministic (jax := flat_jax) fresh_sgd initialized_sgd (1, 4) (1, 7)
              Hunits Hshape) as (fresh & H1 & H2 & Hlen & _).
  exists fresh. by repeat split.
Defined.

(** ** The SGD loop *)

(** C3.  A batch of [SGD.train] that completes has computed the
    gradient at the parameters it was entered with, has replaced the
    parameters of every layer [i] the gradient has an entry for by
    [W_i - lr * g_i.W] and [b_i - lr * g_i.b] (a gradient has one entry
    per layer; it cannot have more, and layers beyond it would be left
    as they are), and has then added to [loss] the cost of the same
    batch at the parameters as they are after the update. *)
Theorem C3_sgd_batch_update_then_cost {F : Type} {scalar : Scalar F} {jax : Jax F}
    {data : Data F} (st st' : SGD.locals) (batch : Batch F) :
  SGD.batch_step st batch = Returns st' →
  ∃ gs c,
    Optimizer.grad_fn (SGD.self_ st) (Optimizer.network_params (SGD.self_ st))
                      (inputs batch) (outputs batch) = Returns gs ∧
    length gs ≤ length (Optimizer.network_params (SGD.self_ st)) ∧
    (∀ i p, Optimizer.network_params (SGD.self_ st) !! i = Some p →
       match gs !! i with
       | Some g =>
           ∃ p', Optimizer.network_params (SGD.self_ st') !! i = Some p' ∧
                 asub (w p) (smap (mul (Optimizer.lr (SGD.self_ st))) (w g)) = Returns (w p') ∧
                 asub (b p) (smap (mul (Optimizer.lr (SGD.self_ st))) (b g)) = Returns (b p')
       | None => Optimizer.network_params (SGD.self_ st') !! i = Some p
       end) ∧
    Optimizer.compute_cost (SGD.self_ st') (Optimizer.network_params (SGD.self_ st'))
                           (inputs batch) (outputs batch) = Returns c ∧
    SGD.loss st' = add (SGD.loss st) c.
Proof.
  intros Hrun.
  apply SGD_batch_step_spec in Hrun as (gs & ps & c & Hgrad & Hloop & Hself & Hlen & Hcost & Hloss).
  apply SGD_update_layers_spec in Hloop as (ps' & [= <-] & _ & Hout & Hin).
  exists gs, c. rewrite Hself in *. simpl in *.
  split; [done|]. split.
  { destruct (decide (length gs ≤ length (Optimizer.network_params (SGD.self_ st))))
      as [|Hgt]; [done|].
    destruct (lookup_lt_is_Some_2 gs (length (Optimizer.network_params (SGD.self_ st))))
      as [g Hg]; [lia|].
    destruct (Hin _ _ Hg) as (p & _ & _ & Hp & _).
    apply lookup_lt_Some in Hp. lia. }
  split; [|done].
  intros i p Hp. destruct (gs !! i) as [g|] eqn:Hg.
  - destruct (Hin _ _ Hg) as (p0 & w' & b' & Hp0 & Hw & Hb & Hps).
    rewrite Hp in Hp0. injection Hp0 as <-. by exists (mkParams w' b').
  - rewrite Hout; [done|]. by apply lookup_ge_None.
Qed.

(** The first batch of the four examples, with the parameters as their
    own gradient. *)
Lemma C3_witness :
  SGD.batch_step (jax := ridge_jax) sgd_entry first_batch = Returns sgd_after_batch ∧
  ∃ c, Optimizer.compute_cost (SGD.self_ sgd_after_batch)
         (Optimizer.network_params (SGD.self_ sgd_after_batch))
         (inputs first_batch) (outputs first_batch) = Returns c ∧
       SGD.loss sgd_after_batch = add (SGD.loss sgd_entry) c.
Proof.
  assert (SGD.batch_step (jax := ridge_jax) sgd_entry first_batch = Returns sgd_after_batch)
    as Hrun.
  { unfold sgd_after_batch.
    destruct (SGD.batch_step sgd_entry first_batch) as [s|e] eqn:E; [reflexivity|].
    vm_compute in E. discriminate E. }
  split; [exact Hrun|].
  destruct (C3_sgd_batch_update_then_cost (jax := ridge_jax) _ _ _ Hrun)
    as (gs & c & _ & _ & _ & Hcost & Hloss).
  exists c. split; [exact Hcost | exact Hloss].
Defined.

Section ZeroGradient.
Context {F : Type} {scalar : Scalar F} {jax : Jax F} {data : Data F}.
Import Optimizer.

(** With an all-zero gradient the layer loop of SGD gives back the
    object it was given. *)
Lemma SGD_update_layers_zero (gs : list (ParamDict F)) (self self' : Optimizer.t F) :
  mul (lr self) zero = zero →
  (∀ a, sub a zero = a) →
  Forall rectangular_params (network_params self) →
  zero_gradient (network_params self) gs →
  for_each SGD.update_layer (enumerate gs) self = Returns self' →
  self' = self.
Proof.
  intros Hmul Hsub Hrect Hzero Hrun.
  apply SGD_update_layers_spec in Hrun as (ps & -> & Hlen & Hout & Hin).
  rewrite <- (set_network_params_id self) at 2. f_equal.
  apply list_eq. intros j. destruct (gs !! j) as [g|] eqn:Hg.
  - destruct (Hin _ _ Hg) as (p & w' & b' & Hp & Hw & Hb & ->). rewrite Hp. f_equal.
    destruct (Forall2_lookup_lr _ _ _ _ _ _ Hzero Hp Hg) as [Hgw Hgb].
    rewrite Forall_lookup in Hrect. destruct (Hrect _ _ Hp) as [Hrw Hrb].
    rewrite Hgw in Hw. rewrite Hgb in Hb. unfold zeros_like in Hw, Hb.
    rewrite smap_zeros in Hw, Hb by done.
    pose proof (asub_zeros (w p) Hsub Hrw) as Hw'.
    pose proof (asub_zeros (b p) Hsub Hrb) as Hb'.
    unfold zeros_like in Hw', Hb'. rewrite Hw' in Hw. rewrite Hb' in Hb.
    injection Hw as <-. injection Hb as <-. by destruct p.
  - apply Hout. by apply lookup_ge_None.
Qed.

End ZeroGradient.

(** C8.  If the gradient function returns the all-zero gradient for
    every batch of the epoch, the parameters after an epoch of SGD are
    the parameters before it.  The arithmetic facts used are that [lr]
    times zero is zero and that subtracting zero changes nothing. *)
Theorem C8_sgd_zero_gradient_keeps_parameters {F : Type} {scalar : Scalar F} {jax : Jax F}
    {data : Data F} (self self' : Optimizer.t F) (x y : array F) :
  mul (Optimizer.lr self) zero = zero →
  (∀ a, sub a zero = a) →
  Forall rectangular_params (Optimizer.network_params self) →
  (∀ batch gs,
     batch ∈ Optimizer.iterator self x y →
     Optimizer.grad_fn self (Optimizer.network_params self) (inputs batch) (outputs batch)
       = Returns gs →
     zero_gradient (Optimizer.network_params self) gs) →
  SGD.epoch x y self = Returns self' →
  Optimizer.network_params self' = Optimizer.network_params self.
Proof.
  intros Hmul Hsub Hrect Hzero Hrun.
  apply SGD_epoch_spec in Hrun as (st & acc & Hloop & _ & _ & _ & -> & _).
  enough (SGD.self_ st = self) as -> by done.
  apply (for_each_invariant (λ s, SGD.self_ s = self)) in Hloop; [done| |done].
  intros s s' batch Hin Hs Hstep.
  apply SGD_batch_step_spec in Hstep as (gs & ps & c & Hgrad & Hupd & -> & _).
  rewrite Hs in *.
  by apply (SGD_update_layers_zero gs) in Hupd; [|try done; by eapply Hzero..].
Qed.

Lemma flat_grad_zero_gradient
    (cost : list (ParamDict Qc) → array Qc → array Qc → outcome Qc)
    (ps gs : list (ParamDict Qc)) (x y : array Qc) :
  flat_grad cost ps x y = Returns gs → zero_gradient ps gs.
Proof.
  unfold flat_grad. intros Hrun. returns_inv Hrun. subst gs. clear Hx.
  unfold zero_gradient. induction ps as [|p ps IH]; simpl.
  - apply Forall2_nil.
  - apply Forall2_cons; [by split | exact IH].
Qed.

(** An epoch over the four examples with the zero gradient. *)
Lemma C8_witness :
  SGD.epoch (jax := flat_jax) four_inputs four_outputs initialized_sgd
    = Returns sgd_after_flat_epoch ∧
  Optimizer.network_params sgd_after_flat_epoch = Optimizer.network_params initialized_sgd.
Proof.
  assert (SGD.epoch (jax := flat_jax) four_inputs four_outputs initialized_sgd
          = Returns sgd_after_flat_epoch) as Hrun.
  { unfold sgd_after_flat_epoch.
    destruct (SGD.epoch four_inputs four_outputs initialized_sgd) as [s|e] eqn:E;
      [reflexivity|].
    vm_compute in E. discriminate E. }
  split; [exact Hrun|].
  apply (C8_sgd_zero_gradient_keeps_parameters (jax := flat_jax)
           initialized_sgd sgd_after_flat_epoch four_inputs four_outputs).
  - apply Qcmult_0_r.
  - intros a. apply Qcplus_0_r.
  - vm_compute. repeat constructor.
  - intros batch gs _ Hgrad. exact (flat_grad_zero_gradient _ _ _ _ _ Hgrad).
  - exact Hrun.
Defined.

(** ** The Momentum loop *)

(** C1.  A batch of [Momentum.train] that completes has, for every
    layer [i] of the gradient, first replaced the velocity by
    [(beta * v_i + (1 - beta * g_i)) / (1 - beta ** t)], for the weights
    and for the biases separately, [t] being the batch counter the batch
    was entered with, and then moved the parameters by [lr] times that
    new velocity.  On a velocity and a gradient of one shape the rule is
    applied entry by entry. *)
Theorem C1_momentum_velocity_then_parameters {F : Type} {scalar : Scalar F} {jax : Jax F}
    {data : Data F} (st st' : Momentum.locals) (batch : Batch F) :
  Momentum.batch_step st batch = Returns st' →
  ∃ gs,
    Optimizer.grad_fn (Momentum.base (Momentum.self_ st))
      (Optimizer.network_params (Momentum.base (Momentum.self_ st)))
      (inputs batch) (outputs batch) = Returns gs ∧
    ∀ i g, gs !! i = Some g →
      ∃ v p v' p',
        Momentum.momentum_params (Momentum.self_ st) !! i = Some v ∧
        Optimizer.network_params (Momentum.base (Momentum.self_ st)) !! i = Some p ∧
        Momentum.momentum_params (Momentum.self_ st') !! i = Some v' ∧
        Optimizer.network_params (Momentum.base (Momentum.self_ st')) !! i = Some p' ∧
        velocity_rule_arrays (Momentum.beta (Momentum.self_ st)) (Momentum.batch_num st)
                             (w v) (w g) = Returns (w v') ∧
        velocity_rule_arrays (Momentum.beta (Momentum.self_ st)) (Momentum.batch_num st)
                             (b v) (b g) = Returns (b v') ∧
        asub (w p) (smap (mul (Optimizer.lr (Momentum.base (Momentum.self_ st)))) (w v'))
          = Returns (w p') ∧
        asub (b p) (smap (mul (Optimizer.lr (Momentum.base (Momentum.self_ st)))) (b v'))
          = Returns (b p') ∧
        (∀ r c x y,
           shape (w v) = shape (w g) →
           entry (w v) r c = Some x → entry (w g) r c = Some y →
           entry (w v') r c
             = Some (velocity_rule (Momentum.beta (Momentum.self_ st))
                                   (Momentum.batch_num st) x y)) ∧
        (∀ r c x y,
           shape (b v) = shape (b g) →
           entry (b v) r c = Some x → entry (b g) r c = Some y →
           entry (b v') r c
             = Some (velocity_rule (Momentum.beta (Momentum.self_ st))
                                   (Momentum.batch_num st) x y)).
Proof.
  intros Hrun.
  apply Momentum_batch_step_spec in Hrun as (gs & cst & Hgrad & Hloop & _).
  apply Momentum_update_layers_spec in Hloop as (ps & vs & -> & _ & _ & _ & Hin).
  exists gs. split; [done|]. intros i g Hg.
  destruct (Hin _ _ Hg) as (v & p & vw & vb & w' & b' & Hv & Hp & Hvw & Hvb & Hw & Hb & Hvs & Hps).
  exists v, p, (mkParams vw vb), (mkParams w' b'). simpl.
  repeat split; try done.
  - intros r c x y Hshape Hx Hy. by eapply velocity_rule_arrays_entry.
  - intros r c x y Hshape Hx Hy. by eapply velocity_rule_arrays_entry.
Qed.

(** The first batch of the four examples, with the parameters as their
    own gradient. *)
Lemma C1_witness :
  Momentum.batch_step (jax := ridge_jax) momentum_entry first_batch
    = Returns momentum_after_batch ∧
  ∃ gs,
    Optimizer.grad_fn (jax := ridge_jax) (Momentum.base (Momentum.self_ momentum_entry))
      (Optimizer.network_params (Momentum.base (Momentum.self_ momentum_entry)))
      (inputs first_batch) (outputs first_batch) = Returns gs.
Proof.
  assert (Momentum.batch_step (jax := ridge_jax) momentum_entry first_batch
          = Returns momentum_after_batch) as Hrun.
  { unfold momentum_after_batch.
    destruct (Momentum.batch_step momentum_entry first_batch) as [s|e] eqn:E; [reflexivity|].
    vm_compute in E. discriminate E. }
  split; [exact Hrun|].
  destruct (C1_momentum_velocity_then_parameters (jax := ridge_jax) _ _ _ Hrun)
    as (gs & Hgrad & _).
  exists gs. exact Hgrad.
Defined.

Section ZeroGradientMomentum.
Context {F : Type} {scalar : Scalar F}.

Lemma entry_zeros (s : nat * nat) (r c : nat) :
  r < s.1 → c < s.2 → entry (zeros s) r c = Some zero.
Proof.
  intros Hr Hc. unfold entry, zeros. simpl.
  rewrite lookup_replicate_2 by done. simpl. by rewrite lookup_replicate_2.
Qed.

Lemma entry_bounds (a : array F) (r c : nat) (x : F) :
  rectangular a → entry a r c = Some x → r < nrows a ∧ c < ncols a.
Proof.
  unfold rectangular, entry, nrows. intros Hrect Hx.
  destruct (rows a !! r) as [row|] eqn:Hrow; simpl in Hx; [|done].
  split; [by eapply lookup_lt_Some|].
  rewrite Forall_lookup in Hrect. rewrite <- (Hrect _ _ Hrow).
  by eapply lookup_lt_Some.
Qed.

(** Against a zero gradient the rule takes an entry [x] of the
    velocity to [(beta * x + 1) / (1 - beta ** t)]. *)
Lemma velocity_rule_arrays_zero (beta : F) (t : Z) (v p v' : array F) (r c : nat) (x : F) :
  mul beta zero = zero →
  sub one zero = one →
  rectangular v →
  shape v = shape p →
  velocity_rule_arrays beta t v (zeros_like p) = Returns v' →
  entry v r c = Some x →
  entry v' r c = Some (div (add (mul beta x) one) (sub one (pow beta t))).
Proof.
  intros Hmul Hsub Hrect Hshape Hrun Hx.
  destruct (entry_bounds _ _ _ _ Hrect Hx) as [Hr Hc].
  rewrite (velocity_rule_arrays_entry beta t v (zeros_like p) v' r c x zero Hrun).
  - unfold velocity_rule. by rewrite Hmul, Hsub.
  - unfold zeros_like. by rewrite shape_zeros.
  - done.
  - apply entry_zeros; rewrite <- Hshape; done.
Qed.

End ZeroGradientMomentum.

(** C9 (as the code has it).  If the gradient of a batch is all zero,
    Momentum replaces every entry [x] of the velocity by
    [(beta * x + 1) / (1 - beta ** t)] and then moves the parameters by
    [lr] times the new velocity.  The velocities are taken to be
    rectangular and of the shapes of the parameters, as initialization
    leaves them; the arithmetic facts used are that [beta] times zero is
    zero and that one minus zero is one. *)
Theorem C9_momentum_zero_gradient {F : Type} {scalar : Scalar F} {jax : Jax F}
    {data : Data F} (st st' : Momentum.locals) (batch : Batch F) (gs : list (ParamDict F)) :
  mul (Momentum.beta (Momentum.self_ st)) zero = zero →
  sub one zero = one →
  Forall rectangular_params (Momentum.momentum_params (Momentum.self_ st)) →
  same_shapes (Momentum.momentum_params (Momentum.self_ st))
              (Optimizer.network_params (Momentum.base (Momentum.self_ st))) →
  Optimizer.grad_fn (Momentum.base (Momentum.self_ st))
    (Optimizer.network_params (Momentum.base (Momentum.self_ st)))
    (inputs batch) (outputs batch) = Returns gs →
  zero_gradient (Optimizer.network_params (Momentum.base (Momentum.self_ st))) gs →
  Momentum.batch_step st batch = Returns st' →
  ∀ i v, Momentum.momentum_params (Momentum.self_ st) !! i = Some v →
    ∃ p v' p',
      Optimizer.network_params (Momentum.base (Momentum.self_ st)) !! i = Some p ∧
      Momentum.momentum_params (Momentum.self_ st') !! i = Some v' ∧
      Optimizer.network_params (Momentum.base (Momentum.self_ st')) !! i = Some p' ∧
      (∀ r c x, entry (w v) r c = Some x →
         entry (w v') r c
           = Some (div (add (mul (Momentum.beta (Momentum.self_ st)) x) one)
                       (sub one (pow (Momentum.beta (Momentum.self_ st))
                                     (Momentum.batch_num st))))) ∧
      (∀ r c x, entry (b v) r c = Some x →
         entry (b v') r c
           = Some (div (add (mul (Momentum.beta (Momentum.self_ st)) x) one)
                       (sub one (pow (Momentum.beta (Momentum.self_ st))
                                     (Momentum.batch_num st))))) ∧
      asub (w p) (smap (mul (Optimizer.lr (Momentum.base (Momentum.self_ st)))) (w v'))
        = Returns (w p') ∧
      asub (b p) (smap (mul (Optimizer.lr (Momentum.base (Momentum.self_ st)))) (b v'))
        = Returns (b p').
Proof.
  intros Hmul Hsub Hrect Hshapes Hgrad Hzero Hrun i v Hv.
  apply Momentum_batch_step_spec in Hrun as (gs' & cst & Hgrad' & Hloop & _).
  rewrite Hgrad in Hgrad'. injection Hgrad' as <-.
  apply Momentum_update_layers_spec in Hloop as (ps & vs & -> & _ & _ & _ & Hin).
  destruct (Forall2_lookup_l _ _ _ _ _ Hshapes Hv) as (p & Hp & Hsw & Hsb).
  destruct (Forall2_lookup_l _ _ _ _ _ Hzero Hp) as (g & Hg & Hgw & Hgb).
  destruct (Hin _ _ Hg)
    as (v0 & p0 & vw & vb & w' & b' & Hv0 & Hp0 & Hvw & Hvb & Hw & Hb & Hvs & Hps).
  rewrite Hv in Hv0. injection Hv0 as <-. rewrite Hp in Hp0. injection Hp0 as <-.
  rewrite Forall_lookup in Hrect. destruct (Hrect _ _ Hv) as [Hrw Hrb].
  rewrite Hgw in Hvw. rewrite Hgb in Hvb.
  exists p, (mkParams vw vb), (mkParams w' b'). simpl.
  repeat split; try done.
  - intros r c x Hx. by eapply (velocity_rule_arrays_zero _ _ (w v) (w p)).
  - intros r c x Hx. by eapply (velocity_rule_arrays_zero _ _ (b v) (b p)).
Qed.

(** The first batch of the four examples with the zero gradient: the
    velocities are zero when it is entered. *)
Lemma C9_witness :
  Momentum.batch_step (jax := flat_jax) momentum_entry first_batch
    = Returns momentum_after_flat_batch ∧
  ∃ v', Momentum.momentum_params (Momentum.self_ momentum_after_flat_batch) !! 0 = Some v' ∧
        entry (w v') 0 0
          = Some (div (add (mul (Momentum.beta (Momentum.self_ momentum_entry)) zero) one)
                      (sub one (pow (Momentum.beta (Momentum.self_ momentum_entry)) 1))).
Proof.
  assert (Momentum.batch_step (jax := flat_jax) momentum_entry first_batch
          = Returns momentum_after_flat_batch) as Hrun.
  { unfold momentum_after_flat_batch.
    destruct (Momentum.batch_step momentum_entry first_batch) as [s|e] eqn:E; [reflexivity|].
    vm_compute in E. discriminate E. }
  split; [exact Hrun|].
  destruct (Optimizer.grad_fn (jax := flat_jax) (Momentum.base (Momentum.self_ momentum_entry))
              (Optimizer.network_params (Momentum.base (Momentum.self_ momentum_entry)))
              (inputs first_batch) (outputs first_batch)) as [gs|e] eqn:Hgrad;
    [|vm_compute in Hgrad; discriminate Hgrad].
  destruct (Momentum.momentum_params (Momentum.self_ momentum_entry) !! 0) as [v|] eqn:Hv;
    [|vm_compute in Hv; discriminate Hv].
  destruct (C9_momentum_zero_gradient (jax := flat_jax) momentum_entry
              momentum_after_flat_batch first_batch gs) with (i := 0) (v := v)
    as (p & v' & p' & _ & Hv' & _ & Hentry & _).
  - apply Qcmult_0_r.
  - apply Qcplus_0_r.
  - vm_compute. repeat constructor.
  - vm_compute. repeat constructor.
  - exact Hgrad.
  - exact (flat_grad_zero_gradient _ _ _ _ _ Hgrad).
  - exact Hrun.
  - exact Hv.
  - exists v'. split; [exact Hv'|]. apply Hentry.
    vm_compute in Hv. injection Hv as <-. reflexivity.
Defined.

(** C9 fails as stated: with the zero gradient the velocity does not
    decay toward zero.  With [beta] = 1/2 the entry [0, 0] of the first
    velocity is 0, 2 on entering the two batches of the first epoch,
    8/3, 14/3 on entering those of the second, and 40/9 in the end; the
    weight it drives moves from 1/50 to -611/450 although every
    gradient is zero. *)
Lemma C9_counterexample :
  (λ r, (map (map (λ st, first_velocity (Momentum.self_ st))) r.1, first_velocity r.2))
    <$> Momentum.train_scan (jax := flat_jax) fresh_momentum four_inputs four_outputs
  = Returns ([[Some 0%Q; Some 2%Q]; [Some (8 # 3)%Q; Some (14 # 3)%Q]], Some (40 # 9)%Q) ∧
  (λ r, (map (map (λ st, first_weight (Momentum.self_ st))) r.1, first_weight r.2))
    <$> Momentum.train_scan (jax := flat_jax) fresh_momentum four_inputs four_outputs
  = Returns ([[Some (1 # 50)%Q; Some (-9 # 50)%Q]; [Some (-67 # 150)%Q; Some (-137 # 150)%Q]],
             Some (-611 # 450)%Q).
Proof. split; vm_compute; reflexivity. Qed.

(** ** The batch counter *)

Section BatchCounter.
Context {F : Type} {scalar : Scalar F} {jax : Jax F} {data : Data F}.
Import Optimizer.

Lemma Momentum_epoch_scan_spec (x y : array F) (m : Momentum.t F)
    (r : list Momentum.locals * Momentum.t F) :
  Momentum.epoch_scan x y m = Returns r →
  Momentum.epoch x y m = Returns r.2 ∧
  length r.1 = length (iterator (Momentum.base m) x y) ∧
  ∀ k st, r.1 !! k = Some st → Momentum.batch_num st = (Z.of_nat k + 1)%Z.
Proof.
  unfold Momentum.epoch_scan, Momentum.epoch. intros Hrun. returns_inv Hrun. subst r.
  simpl. rewrite for_each_scan_final, Hx. simpl.
  split; [done|]. split; [by eapply for_each_scan_length|].
  intros k st Hk.
  destruct (for_each_scan_lookup _ _ _ _ _ _ Hx Hk) as [Hlt Hloop].
  apply Momentum_batch_num_after in Hloop. rewrite Hloop. simpl.
  rewrite length_take. lia.
Qed.

Lemma Momentum_epochs_scan_spec (x y : array F) (n : nat) (m : Momentum.t F)
    (r : list (list Momentum.locals) * Momentum.t F) :
  Momentum.epochs_scan x y n m = Returns r →
  repeat_n (Momentum.epoch x y) n m = Returns r.2 ∧
  length r.1 = n ∧
  ∀ e entered, r.1 !! e = Some entered →
    length entered = length (iterator (Momentum.base m) x y) ∧
    ∀ k st, entered !! k = Some st → Momentum.batch_num st = (Z.of_nat k + 1)%Z.
Proof.
  revert m r. induction n as [|n IH]; intros m r Hrun; simpl in *.
  - injection Hrun as <-. simpl. repeat split; try done.
    all: by destruct e.
  - returns_inv Hrun. subst r. simpl.
    destruct (Momentum_epoch_scan_spec _ _ _ _ Hx) as (Hepoch & Hlen & Hnum).
    destruct (IH _ _ Hx0) as (Hrest & Hlens & Hnums).
    rewrite Hepoch. simpl. split; [done|]. split; [by rewrite Hlens|].
    intros [|e] entered He; simpl in *.
    + injection He as <-. done.
    + destruct (Hnums _ _ He) as [Hl Hn]. split; [|done]. rewrite Hl.
      apply Momentum_epoch_spec in Hepoch as (_ & _ & _ & _ & _ & _ & Hset & _).
      exact (f_equal (λ it, length (it x y)) (f_equal snd Hset)).
Qed.

End BatchCounter.

(** C2 (as the code has it).  In [Momentum.train] the batch counter is
    set to 1 at the start of every epoch and incremented after every
    batch: in each epoch the batch at position [k] (from 0) is entered
    with the counter at [k + 1], so the fourth batch of an epoch, not the
    fourth batch of the run, is the one entered with 4.  The run recorded
    here is the run [Momentum.train] makes. *)
Theorem C2_batch_counter_restarts_each_epoch {F : Type} {scalar : Scalar F} {jax : Jax F}
    {data : Data F} (m : Momentum.t F) (x y : array F)
    (r : list (list Momentum.locals) * Momentum.t F) :
  Momentum.train_scan m x y = Returns r →
  Momentum.train m x y = Returns r.2 ∧
  length r.1 = Z.to_nat (Optimizer.epochs (Momentum.base m)) ∧
  ∀ e entered, r.1 !! e = Some entered →
    length entered = length (Optimizer.iterator (Momentum.base m) x y) ∧
    ∀ k st, entered !! k = Some st → Momentum.batch_num st = (Z.of_nat k + 1)%Z.
Proof.
  unfold Momentum.train_scan, Momentum.train, Momentum.init_network_params.
  rewrite init_network_params_spec. simpl. intros Hrun.
  by apply Momentum_epochs_scan_spec in Hrun.
Qed.

(** Two epochs of two batches over the four examples. *)
Lemma C2_witness :
  Momentum.train_scan (jax := ridge_jax) fresh_momentum four_inputs four_outputs
    = Returns momentum_run ∧
  Momentum.train (jax := ridge_jax) fresh_momentum four_inputs four_outputs
    = Returns momentum_run.2 ∧
  length momentum_run.1 = Z.to_nat (Optimizer.epochs (Momentum.base fresh_momentum)).
Proof.
  assert (Momentum.train_scan (jax := ridge_jax) fresh_momentum four_inputs four_outputs
          = Returns momentum_run) as Hrun.
  { unfold momentum_run.
    destruct (Momentum.train_scan fresh_momentum four_inputs four_outputs) as [s|e] eqn:E;
      [reflexivity|].
    vm_compute in E. discriminate E. }
  split; [exact Hrun|].
  destruct (C2_batch_counter_restarts_each_epoch (jax := ridge_jax) _ _ _ _ Hrun)
    as (Htrain & Hlen & _).
  split; [exact Htrain | exact Hlen].
Defined.

(** C2 fails as stated: the run of two epochs of two batches enters its
    batches with the counter at 1, 2, 1, 2; the fourth batch of the run
    is entered with 2, not 4. *)
Lemma C2_counterexample :
  (λ r, (map (map Momentum.batch_num) r.1, Momentum.batch_num <$> concat r.1 !! 3))
    <$> Momentum.train_scan (jax := ridge_jax) fresh_momentum four_inputs four_outputs
  = Returns ([[1; 2]; [1; 2]]%Z, Some 2%Z).
Proof. vm_compute. reflexivity. Qed.

(** ** The histories *)

(** A loop whose body appends one entry to each of two histories, the
    entries standing in the relation [R] to the states before and after
    the iteration: from empty histories, [n] iterations leave [n]
    entries in each, the [k]-th being those of the [k]-th iteration. *)
Lemma repeat_n_records {St V : Type} (body : St → outcome St) (hc ha : St → list V)
    (R : St → St → V → V → Prop) (n : nat) (s s' : St) :
  (∀ s s', body s = Returns s' →
     ∃ c a, hc s' = hc s ++ [c] ∧ ha s' = ha s ++ [a] ∧ R s s' c a) →
  repeat_n body n s = Returns s' →
  hc s = [] → ha s = [] →
  length (hc s') = n ∧ length (ha s') = n ∧
  ∀ k, k < n →
    ∃ o o' c a,
      repeat_n body k s = Returns o ∧ body o = Returns o' ∧ R o o' c a ∧
      hc s' !! k = Some c ∧ ha s' !! k = Some a.
Proof.
  intros Hbody Hrun Hc Ha.
  assert (∀ h : St → list V, (∀ s s', body s = Returns s' → ∃ v, h s' = h s ++ [v]) →
               ∀ m t t', repeat_n body m t = Returns t' →
                         ∃ vs, length vs = m ∧ h t' = h t ++ vs) as Hgrow.
  { intros h Hh m t t'. by apply repeat_n_history. }
  assert (∀ s s', body s = Returns s' → ∃ v, hc s' = hc s ++ [v]) as Hhc.
  { intros t t' Ht. destruct (Hbody _ _ Ht) as (c & a & Hcc & _). by exists c. }
  assert (∀ s s', body s = Returns s' → ∃ v, ha s' = ha s ++ [v]) as Hha.
  { intros t t' Ht. destruct (Hbody _ _ Ht) as (c & a & _ & Haa & _). by exists a. }
  split.
  { destruct (Hgrow hc Hhc _ _ _ Hrun) as (vs & Hlen & ->). by rewrite Hc. }
  split.
  { destruct (Hgrow ha Hha _ _ _ Hrun) as (vs & Hlen & ->). by rewrite Ha. }
  intros k Hk.
  replace n with (k + S (n - k - 1)) in Hrun by lia.
  rewrite repeat_n_add in Hrun. apply bind_Returns in Hrun as (o & Hfirst & Hrest).
  simpl in Hrest. apply bind_Returns in Hrest as (o' & Hstep & Hrest).
  destruct (Hbody _ _ Hstep) as (c & a & Hoc & Hoa & HR).
  exists o, o', c, a. split; [done|]. split; [done|]. split; [done|].
  destruct (Hgrow hc Hhc _ _ _ Hfirst) as (cs & Hcs & Hco).
  destruct (Hgrow ha Hha _ _ _ Hfirst) as (az & Haz & Hao).
  destruct (Hgrow hc Hhc _ _ _ Hrest) as (cs' & _ & ->).
  destruct (Hgrow ha Hha _ _ _ Hrest) as (az' & _ & ->).
  rewrite Hoc, Hoa, Hco, Hao, Hc, Ha. simpl. rewrite <- !app_assoc. simpl.
  split; [by apply list_lookup_middle | by apply list_lookup_middle].
Qed.

(** C6.  After a completed [train] of an optimizer whose histories were
    empty, [cost] and [accuracy] hold [epochs] entries each, when
    [epochs] is positive.  The entry of epoch [k] in [cost] is the loss
    the batch loop of that epoch accumulated, starting from zero, and
    the one in [accuracy] is the accuracy over the whole data set,
    evaluated when the epoch had ended.  This holds for [SGD] and for
    [Momentum]. *)
Theorem C6_one_history_entry_per_epoch {F : Type} {scalar : Scalar F} {jax : Jax F}
    {data : Data F} :
  (∀ (self self' : Optimizer.t F) (x y : array F),
     Optimizer.cost self = [] → Optimizer.accuracy self = [] →
     (0 < Optimizer.epochs self)%Z →
     SGD.train self x y = Returns self' →
     Z.of_nat (length (Optimizer.cost self')) = Optimizer.epochs self ∧
     Z.of_nat (length (Optimizer.accuracy self')) = Optimizer.epochs self ∧
     ∀ k, k < length (Optimizer.cost self') →
       ∃ o st o' acc,
         Optimizer.init_network_params self (shape x) ≫= repeat_n (SGD.epoch x y) k
           = Returns o ∧
         for_each SGD.batch_step (Optimizer.iterator o x y) (SGD.mkLocals o zero)
           = Returns st ∧
         SGD.epoch x y o = Returns o' ∧
         Optimizer.evaluate o' x y = Returns acc ∧
         Optimizer.cost self' !! k = Some (SGD.loss st) ∧
         Optimizer.accuracy self' !! k = Some acc) ∧
  (∀ (m m' : Momentum.t F) (x y : array F),
     Optimizer.cost (Momentum.base m) = [] → Optimizer.accuracy (Momentum.base m) = [] →
     (0 < Optimizer.epochs (Momentum.base m))%Z →
     Momentum.train m x y = Returns m' →
     Z.of_nat (length (Optimizer.cost (Momentum.base m')))
       = Optimizer.epochs (Momentum.base m) ∧
     Z.of_nat (length (Optimizer.accuracy (Momentum.base m')))
       = Optimizer.epochs (Momentum.base m) ∧
     ∀ k, k < length (Optimizer.cost (Momentum.base m')) →
       ∃ o st o' acc,
         Momentum.init_network_params m (shape x) ≫= repeat_n (Momentum.epoch x y) k
           = Returns o ∧
         for_each Momentum.batch_step (Optimizer.iterator (Momentum.base o) x y)
                  (Momentum.mkLocals o zero 1) = Returns st ∧
         Momentum.epoch x y o = Returns o' ∧
         Optimizer.evaluate (Momentum.base o') x y = Returns acc ∧
         Optimizer.cost (Momentum.base m') !! k = Some (Momentum.loss st) ∧
         Optimizer.accuracy (Momentum.base m') !! k = Some acc).
Proof.
  split.
  - intros self self' x y Hc Ha Hpos Hrun. unfold SGD.train in Hrun.
    rewrite init_network_params_spec in Hrun |- *. simpl in Hrun |- *.
    apply (repeat_n_records (SGD.epoch x y) Optimizer.cost Optimizer.accuracy
             (λ o o' c a, ∃ st,
                for_each SGD.batch_step (Optimizer.iterator o x y) (SGD.mkLocals o zero)
                  = Returns st ∧
                c = SGD.loss st ∧ Optimizer.evaluate o' x y = Returns a))
      in Hrun as (Hlc & Hla & Hk); [| |done..].
    + rewrite Hlc, Hla. split; [lia|]. split; [lia|].
      intros k Hlt. destruct (Hk k Hlt) as (o & o' & c & a & Ho & Hstep & (st & Hst & -> & He) & Hck & Hak).
      by exists o, st, o', a.
    + intros o o' Hstep.
      destruct (SGD_epoch_spec _ _ _ _ Hstep) as (st & acc & Hloop & Hcost & Heval & Hacc & _).
      exists (SGD.loss st), acc. split; [done|]. split; [done|]. by exists st.
  - intros m m' x y Hc Ha Hpos Hrun. unfold Momentum.train in Hrun.
    unfold Momentum.init_network_params in Hrun |- *.
    rewrite init_network_params_spec in Hrun |- *. simpl in Hrun |- *.
    apply (repeat_n_records (Momentum.epoch x y)
             (λ o, Optimizer.cost (Momentum.base o))
             (λ o, Optimizer.accuracy (Momentum.base o))
             (λ o o' c a, ∃ st,
                for_each Momentum.batch_step (Optimizer.iterator (Momentum.base o) x y)
                         (Momentum.mkLocals o zero 1) = Returns st ∧
                c = Momentum.loss st ∧
                Optimizer.evaluate (Momentum.base o') x y = Returns a))
      in Hrun as (Hlc & Hla & Hk); [| |done..].
    + rewrite Hlc, Hla. split; [lia|]. split; [lia|].
      intros k Hlt. destruct (Hk k Hlt) as (o & o' & c & a & Ho & Hstep & (st & Hst & -> & He) & Hck & Hak).
      by exists o, st, o', a.
    + intros o o' Hstep.
      destruct (Momentum_epoch_spec _ _ _ _ Hstep)
        as (st & acc & Hloop & Hcost & Heval & Hacc & _).
      exists (Momentum.loss st), acc. split; [done|]. split; [done|]. by exists st.
Qed.

(** Two epochs of each optimizer over the four examples. *)
Lemma C6_witness :
  SGD.train (jax := ridge_jax) fresh_sgd four_inputs four_outputs = Returns sgd_first_run ∧
  Z.of_nat (length (Optimizer.cost sgd_first_run)) = Optimizer.epochs fresh_sgd ∧
  Z.of_nat (length (Optimizer.accuracy sgd_first_run)) = Optimizer.epochs fresh_sgd ∧
  Momentum.train (jax := ridge_jax) fresh_momentum four_inputs four_outputs
    = Returns momentum_first_run ∧
  Z.of_nat (length (Optimizer.cost (Momentum.base momentum_first_run)))
    = Optimizer.epochs (Momentum.base fresh_momentum) ∧
  Z.of_nat (length (Optimizer.accuracy (Momentum.base momentum_first_run)))
    = Optimizer.epochs (Momentum.base fresh_momentum).
Proof.
  assert (SGD.train (jax := ridge_jax) fresh_sgd four_inputs four_outputs
          = Returns sgd_first_run) as Hsgd.
  { unfold sgd_first_run.
    destruct (SGD.train fresh_sgd four_inputs four_outputs) as [s|e] eqn:E; [reflexivity|].
    vm_compute in E. discriminate E. }
  assert (Momentum.train (jax := ridge_jax) fresh_momentum four_inputs four_outputs
          = Returns momentum_first_run) as Hmom.
  { unfold momentum_first_run.
    destruct (Momentum.train fresh_momentum four_inputs four_outputs) as [s|e] eqn:E;
      [reflexivity|].
    vm_compute in E. discriminate E. }
  destruct (proj1 (C6_one_history_entry_per_epoch (jax := ridge_jax))
              fresh_sgd sgd_first_run four_inputs four_outputs
              eq_refl eq_refl eq_refl Hsgd) as (Hc & Ha & _).
  destruct (proj2 (C6_one_history_entry_per_epoch (jax := ridge_jax))
              fresh_momentum momentum_first_run four_inputs four_outputs
              eq_refl eq_refl eq_refl Hmom) as (Hmc & Hma & _).
  split; [exact Hsgd|]. split; [exact Hc|]. split; [exact Ha|].
  split; [exact Hmom|]. split; [exact Hmc | exact Hma].
Defined.

(** ** Training twice *)

Section TrainTwice.
Context {F : Type} {scalar : Scalar F} {jax : Jax F} {data : Data F}.
Import Optimizer.

(** A run of [SGD.train] leaves the settings alone, adds one parameter
    set per layer and one entry per epoch to each history. *)
Lemma SGD_train_spec (self o : Optimizer.t F) (x y : array F) :
  SGD.train self x y = Returns o →
  settings o = settings self ∧
  length (network_params o) = length (network_params self) + length (layers self) ∧
  (∃ fresh,
     length fresh = length (layers self) ∧
     init_network_params self (shape x)
       = Returns (set_network_params (network_params self ++ fresh) self) ∧
     repeat_n (SGD.epoch x y) (Z.to_nat (epochs self))
              (set_network_params (network_params self ++ fresh) self) = Returns o) ∧
  (∃ cs, length cs = Z.to_nat (epochs self) ∧ cost o = cost self ++ cs) ∧
  (∃ az, length az = Z.to_nat (epochs self) ∧ accuracy o = accuracy self ++ az).
Proof.
  unfold SGD.train. rewrite init_network_params_spec. simpl. intros Hrun.
  pose proof (repeat_n_preserves (SGD.epoch x y)
                (λ o, (settings o, length (network_params o))) _ _ _
                ltac:(intros s s' Hs; apply SGD_epoch_frame in Hs as [-> ->]; done) Hrun)
    as Hframe.
  simpl in Hframe. rewrite length_app, initial_params_length, length_map in Hframe.
  split; [exact (f_equal fst Hframe)|]. split; [exact (f_equal snd Hframe)|].
  split.
  { eexists. split; [|split; [reflexivity | exact Hrun]].
    by rewrite initial_params_length, length_map. }
  split.
  - apply (repeat_n_history (SGD.epoch x y) cost) in Hrun; [done|].
    intros s s' Hs. apply SGD_epoch_spec in Hs as (st & acc & _ & Hc & _). by eexists.
  - apply (repeat_n_history (SGD.epoch x y) accuracy) in Hrun; [done|].
    intros s s' Hs. apply SGD_epoch_spec in Hs as (st & acc & _ & _ & _ & Ha & _).
    by eexists.
Qed.

End TrainTwice.

(** C10.  [init_network_params] puts one parameter set per layer behind
    those the optimizer already holds, which stay where they are; the
    initialization of [Momentum] goes through it.  So when [SGD.train]
    is called a second time on an optimizer, its epochs run on the
    parameters of the first run followed by fresh ones, twice as many as
    there are layers, forward evaluation reads the first
    [len(self.layers)] of them only, and the histories end with twice
    [epochs] entries. *)
Theorem C10_second_train_appends {F : Type} {scalar : Scalar F} {jax : Jax F}
    {data : Data F} (self o1 o2 : Optimizer.t F) (x y x' y' : array F) :
  Optimizer.network_params self = [] →
  Optimizer.cost self = [] →
  Optimizer.accuracy self = [] →
  SGD.train self x y = Returns o1 →
  SGD.train o1 x' y' = Returns o2 →
  length (Optimizer.network_params o1) = length (Optimizer.layers self) ∧
  (∃ fresh,
     length fresh = length (Optimizer.layers self) ∧
     Optimizer.init_network_params o1 (shape x')
       = Returns (Optimizer.set_network_params (Optimizer.network_params o1 ++ fresh) o1) ∧
     repeat_n (SGD.epoch x' y') (Z.to_nat (Optimizer.epochs self))
              (Optimizer.set_network_params (Optimizer.network_params o1 ++ fresh) o1)
       = Returns o2) ∧
  length (Optimizer.network_params o2) = 2 * length (Optimizer.layers self) ∧
  (∀ z, Optimizer.compute_predictions o2 (Optimizer.network_params o2) z
        = Optimizer.compute_predictions o2
            (take (length (Optimizer.layers self)) (Optimizer.network_params o2)) z) ∧
  length (Optimizer.cost o2) = 2 * Z.to_nat (Optimizer.epochs self) ∧
  length (Optimizer.accuracy o2) = 2 * Z.to_nat (Optimizer.epochs self) ∧
  (∀ (m : Momentum.t F) (s : nat * nat),
     Momentum.base <$> Momentum.init_network_params m s
     = Optimizer.init_network_params (Momentum.base m) s).
Proof.
  intros Hps Hc Ha Hrun1 Hrun2.
  apply SGD_train_spec in Hrun1
    as (Hset1 & Hlen1 & _ & (cs1 & Hcs1 & Hcost1) & (az1 & Haz1 & Hacc1)).
  apply SGD_train_spec in Hrun2
    as (Hset2 & Hlen2 & (fresh & Hfresh & Hinit & Hloop) & (cs2 & Hcs2 & Hcost2)
        & (az2 & Haz2 & Hacc2)).
  assert (Optimizer.layers o1 = Optimizer.layers self) as Hl1
    by exact (f_equal (λ q, q.1.1.1.1.1) Hset1).
  assert (Optimizer.epochs o1 = Optimizer.epochs self) as He1
    by exact (f_equal (λ q, q.1.1.2) Hset1).
  assert (Optimizer.layers o2 = Optimizer.layers o1) as Hl2
    by exact (f_equal (λ q, q.1.1.1.1.1) Hset2).
  rewrite Hps in Hlen1. simpl in Hlen1.
  rewrite Hl1 in Hlen2, Hfresh. rewrite He1 in Hloop, Hcs2, Haz2.
  split; [done|].
  split; [by exists fresh|].
  split; [lia|].
  split.
  { intros z. rewrite <- Hl1, <- Hl2. apply compute_predictions_take. }
  split; [rewrite Hcost2, Hcost1, Hc, !length_app; simpl; lia|].
  split; [rewrite Hacc2, Hacc1, Ha, !length_app; simpl; lia|].
  intros m s. unfold Momentum.init_network_params.
  by rewrite init_network_params_spec.
Qed.

(** [SGD.train] called twice on one optimizer, over the four examples. *)
Lemma C10_witness :
  SGD.train (jax := ridge_jax) fresh_sgd four_inputs four_outputs = Returns sgd_first_run ∧
  SGD.train (jax := ridge_jax) sgd_first_run four_inputs four_outputs
    = Returns sgd_second_run ∧
  length (Optimizer.network_params sgd_first_run) = 2 ∧
  length (Optimizer.network_params sgd_second_run) = 4 ∧
  length (Optimizer.cost sgd_second_run) = 4 ∧
  length (Optimizer.accuracy sgd_second_run) = 4.
Proof.
  assert (SGD.train (jax := ridge_jax) fresh_sgd four_inputs four_outputs
          = Returns sgd_first_run) as Hrun1.
  { unfold sgd_first_run.
    destruct (SGD.train fresh_sgd four_inputs four_outputs) as [s|e] eqn:E; [reflexivity|].
    vm_compute in E. discriminate E. }
  assert (SGD.train (jax := ridge_jax) sgd_first_run four_inputs four_outputs
          = Returns sgd_second_run) as Hrun2.
  { unfold sgd_second_run.
    destruct (SGD.train sgd_first_run four_inputs four_outputs) as [s|e] eqn:E;
      [reflexivity|].
    vm_compute in E. discriminate E. }
  destruct (C10_second_train_appends (jax := ridge_jax) fresh_sgd sgd_first_run
              sgd_second_run four_inputs four_outputs four_inputs four_outputs
              eq_refl eq_refl eq_refl Hrun1 Hrun2)
    as (Hl1 & _ & Hl2 & _ & Hc & Ha & _).
  split; [exact Hrun1|]. split; [exact Hrun2|]. split; [exact Hl1|].
  split; [exact Hl2|]. split; [exact Hc | exact Ha].
Defined.

(** * Further properties of the code *)

(** ** Evaluation without parameters *)

Lemma for_each_app {A S : Type} (body : S → A → outcome S) (xs ys : list A) (s : S) :
  for_each body (xs ++ ys) s = for_each body xs s ≫= for_each body ys.
Proof.
  revert s. induction xs as [|x xs IH]; intros s; simpl; [done|].
  destruct (body s x) as [s'|e]; simpl; [apply IH | done].
Qed.

Lemma enumerate_lookup {A : Type} (xs : list A) (i : nat) (x : A) :
  xs !! i = Some x → enumerate xs !! i = Some (i, x).
Proof.
  intros Hx. unfold enumerate. rewrite lookup_zip_with.
  rewrite lookup_seq_lt by by eapply lookup_lt_Some. simpl. by rewrite Hx.
Qed.

(** X1.  When there are fewer parameter sets than layers, and the
    forward pass gets through the layers that have one, the first layer
    without parameters raises [IndexError]: in [compute_predictions],
    in [compute_cost], and in [evaluate] when the parameters are the
    optimizer's own (as they are, empty, before any [train]). *)
Theorem X1_forward_pass_without_parameters {F : Type} {scalar : Scalar F}
    (self : Optimizer.t F) (params : list (ParamDict F)) (x a : array F) :
  for_each (Optimizer.forward_layer params)
           (take (length params) (enumerate (Optimizer.layers self))) x = Returns a →
  length params < length (Optimizer.layers self) →
  Optimizer.compute_predictions self params x = Raises IndexError ∧
  (∀ y, Optimizer.compute_cost self params x y = Raises IndexError) ∧
  (∀ y, params = Optimizer.network_params self →
        Optimizer.evaluate self x y = Raises IndexError).
Proof.
  intros Hprefix Hlt.
  assert (Optimizer.compute_predictions self params x = Raises IndexError) as Hraise.
  { unfold Optimizer.compute_predictions.
    rewrite <- (take_drop (length params) (enumerate (Optimizer.layers self))).
    rewrite for_each_app, Hprefix. simpl.
    destruct (lookup_lt_is_Some_2 _ _ Hlt) as [l Hl].
    pose proof (enumerate_lookup _ _ _ Hl) as Hel.
    rewrite <- (Nat.add_0_r (length params)) in Hel. rewrite <- lookup_drop in Hel.
    destruct (drop (length params) (enumerate (Optimizer.layers self))) as [|il rest];
      [done|].
    injection Hel as ->. simpl. unfold py_index.
    by rewrite lookup_ge_None_2 by lia. }
  split; [done|]. split.
  - intros y. unfold Optimizer.compute_cost. by rewrite Hraise.
  - intros y ->. unfold Optimizer.evaluate. by rewrite Hraise.
Qed.

(** An optimizer of two layers that has not been trained. *)
Lemma X1_witness :
  for_each (Optimizer.forward_layer [])
           (take (length (@nil (ParamDict Qc))) (enumerate (Optimizer.layers fresh_sgd)))
           four_inputs = Returns four_inputs ∧
  length (@nil (ParamDict Qc)) < length (Optimizer.layers fresh_sgd) ∧
  Optimizer.evaluate fresh_sgd four_inputs four_outputs = Raises IndexError.
Proof.
  assert (for_each (Optimizer.forward_layer [])
            (take (length (@nil (ParamDict Qc))) (enumerate (Optimizer.layers fresh_sgd)))
            four_inputs = Returns four_inputs) as Hprefix by reflexivity.
  assert (length (@nil (ParamDict Qc)) < length (Optimizer.layers fresh_sgd)) as Hlt
    by (simpl; lia).
  split; [exact Hprefix|]. split; [exact Hlt|].
  destruct (X1_forward_pass_without_parameters fresh_sgd [] four_inputs four_inputs
              Hprefix Hlt) as (_ & _ & Heval).
  exact (Heval four_outputs eq_refl).
Defined.

(** ** No epochs *)

(** X2.  With [epochs <= 0] the loop over [range(self.epochs)] has no
    iteration: [train] initializes the parameters and returns, for [SGD]
    and for [Momentum], with both histories as they were. *)
Theorem X2_no_epochs_only_initializes {F : Type} {scalar : Scalar F} {jax : Jax F}
    {data : Data F} :
  (∀ (self : Optimizer.t F) (x y : array F),
     (Optimizer.epochs self ≤ 0)%Z →
     SGD.train self x y = Optimizer.init_network_params self (shape x) ∧
     ∃ o, SGD.train self x y = Returns o ∧
          Optimizer.cost o = Optimizer.cost self ∧
          Optimizer.accuracy o = Optimizer.accuracy self) ∧
  (∀ (m : Momentum.t F) (x y : array F),
     (Optimizer.epochs (Momentum.base m) ≤ 0)%Z →
     Momentum.train m x y = Momentum.init_network_params m (shape x) ∧
     ∃ o, Momentum.train m x y = Returns o ∧
          Optimizer.cost (Momentum.base o) = Optimizer.cost (Momentum.base m) ∧
          Optimizer.accuracy (Momentum.base o) = Optimizer.accuracy (Momentum.base m)).
Proof.
  split.
  - intros self x y Hle. unfold SGD.train.
    rewrite init_network_params_spec. simpl.
    replace (Z.to_nat (Optimizer.epochs self)) with 0 by lia. simpl.
    split; [done|]. by eexists.
  - intros m x y Hle. unfold Momentum.train, Momentum.init_network_params.
    rewrite init_network_params_spec. simpl.
    replace (Z.to_nat (Optimizer.epochs (Momentum.base m))) with 0 by lia. simpl.
    split; [done|]. by eexists.
Qed.

(** Both optimizers constructed with [epochs = 0]. *)
Lemma X2_witness :
  (Optimizer.epochs idle_sgd ≤ 0)%Z ∧
  SGD.train (jax := ridge_jax) idle_sgd four_inputs four_outputs
    = Optimizer.init_network_params (jax := ridge_jax) idle_sgd (shape four_inputs) ∧
  (Optimizer.epochs (Momentum.base idle_momentum) ≤ 0)%Z ∧
  Momentum.train (jax := ridge_jax) idle_momentum four_inputs four_outputs
    = Momentum.init_network_params (jax := ridge_jax) idle_momentum (shape four_inputs).
Proof.
  assert (Optimizer.epochs idle_sgd ≤ 0)%Z as Hs by (simpl; lia).
  assert (Optimizer.epochs (Momentum.base idle_momentum) ≤ 0)%Z as Hm by (simpl; lia).
  split; [exact Hs|].
  split; [exact (proj1 (proj1 (X2_no_epochs_only_initializes (jax := ridge_jax))
                              idle_sgd four_inputs four_outputs Hs))|].
  split; [exact Hm|].
  exact (proj1 (proj2 (X2_no_epochs_only_initializes (jax := ridge_jax))
                      idle_momentum four_inputs four_outputs Hm)).
Defined.

(** ** The loss of an epoch *)

(** A loop that adds to an accumulator, at every element, a price read
    off the state it has just reached, ends with the accumulator it
    started from plus those prices, added from left to right. *)
Lemma for_each_accumulates {A St V : Type} (body : St → A → outcome St) (acc : St → V)
    (plus : V → V → V) (price : St → A → outcome V) (xs : list A) (s s' : St) :
  (∀ s x s', body s x = Returns s' →
     ∃ c, price s' x = Returns c ∧ acc s' = plus (acc s) c) →
  for_each body xs s = Returns s' →
  ∃ cs, length cs = length xs ∧ acc s' = foldl plus (acc s) cs ∧
        ∀ j x c, xs !! j = Some x → cs !! j = Some c →
          ∃ sj, for_each body (take (S j) xs) s = Returns sj ∧ price sj x = Returns c.
Proof.
  intros Hbody. revert s. induction xs as [|x xs IH]; intros s Hrun; simpl in *.
  - injection Hrun as <-. exists []. by repeat split.
  - apply bind_Returns in Hrun as (s1 & Hstep & Hrun).
    destruct (Hbody _ _ _ Hstep) as (c1 & Hprice & Hacc).
    destruct (IH _ Hrun) as (cs & Hlen & Hsum & Hcs).
    exists (c1 :: cs). simpl. split; [by rewrite Hlen|]. split; [by rewrite <- Hacc|].
    intros [|j] x' c Hx Hc; simpl in *.
    + injection Hx as <-. injection Hc as <-. exists s1. by rewrite Hstep.
    + destruct (Hcs _ _ _ Hx Hc) as (sj & Hsj & Hpr). exists sj. by rewrite Hstep.
Qed.

(** X3.  The entry an epoch of [SGD.train] appends to [cost] is the sum,
    added from left to right starting from [0.0], of one cost per batch
    in the iterator's order: the cost of that batch at the parameters as
    they are once that batch's update is done.  With no batch the entry
    is [0.0]. *)
Theorem X3_sgd_epoch_loss_is_sum_of_batch_costs {F : Type} {scalar : Scalar F}
    {jax : Jax F} {data : Data F} (x y : array F) (o o' : Optimizer.t F) :
  SGD.epoch x y o = Returns o' →
  ∃ cs,
    length cs = length (Optimizer.iterator o x y) ∧
    Optimizer.cost o' = Optimizer.cost o ++ [foldl add zero cs] ∧
    ∀ j batch c,
      Optimizer.iterator o x y !! j = Some batch → cs !! j = Some c →
      ∃ st,
        for_each SGD.batch_step (take (S j) (Optimizer.iterator o x y)) (SGD.mkLocals o zero)
          = Returns st ∧
        Optimizer.compute_cost (SGD.self_ st) (Optimizer.network_params (SGD.self_ st))
                               (inputs batch) (outputs batch) = Returns c.
Proof.
  intros Hrun.
  apply SGD_epoch_spec in Hrun as (st & acc & Hloop & Hcost & _).
  apply (for_each_accumulates SGD.batch_step SGD.loss add
           (λ st batch, Optimizer.compute_cost (SGD.self_ st)
                          (Optimizer.network_params (SGD.self_ st))
                          (inputs batch) (outputs batch)))
    in Hloop as (cs & Hlen & Hsum & Hcs).
  - exists cs. rewrite Hcost, Hsum. by repeat split.
  - intros s batch s' Hstep.
    apply SGD_batch_step_spec in Hstep as (gs & ps & c & _ & _ & Hself & _ & Hc & Hloss).
    exists c. split; [|done]. rewrite Hself in Hc |- *. exact Hc.
Qed.

(** The first epoch over the four examples. *)
Lemma X3_witness :
  SGD.epoch (jax := flat_jax) four_inputs four_outputs initialized_sgd
    = Returns sgd_after_flat_epoch ∧
  ∃ cs, length cs = length (Optimizer.iterator initialized_sgd four_inputs four_outputs) ∧
        Optimizer.cost sgd_after_flat_epoch
          = Optimizer.cost initialized_sgd ++ [foldl add zero cs].
Proof.
  assert (SGD.epoch (jax := flat_jax) four_inputs four_outputs initialized_sgd
          = Returns sgd_after_flat_epoch) as Hrun.
  { unfold sgd_after_flat_epoch.
    destruct (SGD.epoch four_inputs four_outputs initialized_sgd) as [s|e] eqn:E;
      [reflexivity|].
    vm_compute in E. discriminate E. }
  split; [exact Hrun|].
  destruct (X3_sgd_epoch_loss_is_sum_of_batch_costs (jax := flat_jax) _ _ _ _ Hrun)
    as (cs & Hlen & Hcost & _).
  exists cs. split; [exact Hlen | exact Hcost].
Defined.

(** X4.  The same for an epoch of [Momentum.train]: the entry appended
    to [cost] is the left-to-right sum, from [0.0], of the costs of the
    batches, each at the parameters as they are after that batch's
    update. *)
Theorem X4_momentum_epoch_loss_is_sum_of_batch_costs {F : Type} {scalar : Scalar F}
    {jax : Jax F} {data : Data F} (x y : array F) (m m' : Momentum.t F) :
  Momentum.epoch x y m = Returns m' →
  ∃ cs,
    length cs = length (Optimizer.iterator (Momentum.base m) x y) ∧
    Optimizer.cost (Momentum.base m')
      = Optimizer.cost (Momentum.base m) ++ [foldl add zero cs] ∧
    ∀ j batch c,
      Optimizer.iterator (Momentum.base m) x y !! j = Some batch → cs !! j = Some c →
      ∃ st,
        for_each Momentum.batch_step (take (S j) (Optimizer.iterator (Momentum.base m) x y))
                 (Momentum.mkLocals m zero 1) = Returns st ∧
        Optimizer.compute_cost (Momentum.base (Momentum.self_ st))
          (Optimizer.network_params (Momentum.base (Momentum.self_ st)))
          (inputs batch) (outputs batch) = Returns c.
Proof.
  intros Hrun.
  apply Momentum_epoch_spec in Hrun as (st & acc & Hloop & Hcost & _).
  apply (for_each_accumulates Momentum.batch_step Momentum.loss add
           (λ st batch, Optimizer.compute_cost (Momentum.base (Momentum.self_ st))
                          (Optimizer.network_params (Momentum.base (Momentum.self_ st)))
                          (inputs batch) (outputs batch)))
    in Hloop as (cs & Hlen & Hsum & Hcs).
  - exists cs. rewrite Hcost, Hsum. by repeat split.
  - intros s batch s' Hstep.
    apply Momentum_batch_step_spec in Hstep as (gs & c & _ & _ & _ & Hc & Hloss).
    by exists c.
Qed.

(** The first epoch of Momentum over the four examples. *)
Lemma X4_witness :
  Momentum.epoch (jax := ridge_jax) four_inputs four_outputs initialized_momentum
    = Returns (returned initialized_momentum
                 (Momentum.epoch (jax := ridge_jax) four_inputs four_outputs
                    initialized_momentum)) ∧
  ∃ cs : list Qc,
    length cs = length (Optimizer.iterator (Momentum.base initialized_momentum)
                          four_inputs four_outputs).
Proof.
  assert (Momentum.epoch (jax := ridge_jax) four_inputs four_outputs initialized_momentum
          = Returns (returned initialized_momentum
                       (Momentum.epoch (jax := ridge_jax) four_inputs four_outputs
                          initialized_momentum))) as Hrun.
  { destruct (Momentum.epoch four_inputs four_outputs initialized_momentum) as [s|e] eqn:E;
      [reflexivity|].
    vm_compute in E. discriminate E. }
  split; [exact Hrun|].
  destruct (X4_momentum_epoch_loss_is_sum_of_batch_costs (jax := ridge_jax) _ _ _ _ Hrun)
    as (cs & Hlen & _).
  exists cs. exact Hlen.
Defined.

(** ** What a run leaves alone *)

Section TrainFrames.
Context {F : Type} {scalar : Scalar F} {jax : Jax F} {data : Data F}.
Import Optimizer.

Lemma Momentum_train_spec (m m' : Momentum.t F) (x y : array F) :
  Momentum.train m x y = Returns m' →
  settings (Momentum.base m') = settings (Momentum.base m) ∧
  Momentum.beta m' = Momentum.beta m ∧
  length (network_params (Momentum.base m'))
    = length (network_params (Momentum.base m)) + length (layers (Momentum.base m)) ∧
  length (Momentum.momentum_params m') = length (network_params (Momentum.base m')) ∧
  (∃ cs, length cs = Z.to_nat (epochs (Momentum.base m)) ∧
         cost (Momentum.base m') = cost (Momentum.base m) ++ cs) ∧
  (∃ az, length az = Z.to_nat (epochs (Momentum.base m)) ∧
         accuracy (Momentum.base m') = accuracy (Momentum.base m) ++ az).
Proof.
  unfold Momentum.train, Momentum.init_network_params.
  rewrite init_network_params_spec. simpl. intros Hrun.
  pose proof (repeat_n_preserves (Momentum.epoch x y)
                (λ o, (settings (Momentum.base o), Momentum.beta o,
                       length (network_params (Momentum.base o)),
                       length (Momentum.momentum_params o))) _ _ _
                ltac:(intros s s' Hs;
                      apply Momentum_epoch_spec in Hs
                        as (? & ? & _ & _ & _ & _ & -> & -> & -> & ->); done) Hrun)
    as Hframe.
  simpl in Hframe.
  rewrite length_map, length_app, initial_params_length, length_map in Hframe.
  split; [exact (f_equal (λ q, q.1.1.1) Hframe)|].
  split; [exact (f_equal (λ q, q.1.1.2) Hframe)|].
  split; [exact (f_equal (λ q, q.1.2) Hframe)|].
  split; [etrans; [exact (f_equal snd Hframe)
                  | symmetry; exact (f_equal (λ q, q.1.2) Hframe)]|].
  split.
  - apply (repeat_n_history (Momentum.epoch x y) (λ o, cost (Momentum.base o))) in Hrun;
      [done|].
    intros s s' Hs. apply Momentum_epoch_spec in Hs as (st & acc & _ & Hc & _). by eexists.
  - apply (repeat_n_history (Momentum.epoch x y) (λ o, accuracy (Momentum.base o))) in Hrun;
      [done|].
    intros s s' Hs. apply Momentum_epoch_spec in Hs as (st & acc & _ & _ & _ & Ha & _).
    by eexists.
Qed.

End TrainFrames.

(** X5.  Whatever the optimizer holds when [SGD.train] is called, a
    completed run leaves its layers, loss and accuracy functions,
    [epochs], [lr] and iterator as they were, keeps every entry of both
    histories in place and puts [max(epochs, 0)] new entries behind
    them, and leaves one more parameter set per layer than there were. *)
Theorem X5_sgd_train_keeps_settings_and_history {F : Type} {scalar : Scalar F}
    {jax : Jax F} {data : Data F} (self o : Optimizer.t F) (x y : array F) :
  SGD.train self x y = Returns o →
  settings o = settings self ∧
  length (Optimizer.network_params o)
    = length (Optimizer.network_params self) + length (Optimizer.layers self) ∧
  (∃ cs, length cs = Z.to_nat (Optimizer.epochs self) ∧
         Optimizer.cost o = Optimizer.cost self ++ cs) ∧
  (∃ az, length az = Z.to_nat (Optimizer.epochs self) ∧
         Optimizer.accuracy o = Optimizer.accuracy self ++ az).
Proof.
  intros Hrun. apply SGD_train_spec in Hrun as (Hset & Hlen & _ & Hcost & Hacc).
  by repeat split.
Qed.

(** A second run on an optimizer that has been trained. *)
Lemma X5_witness :
  SGD.train (jax := ridge_jax) sgd_first_run four_inputs four_outputs
    = Returns sgd_second_run ∧
  settings sgd_second_run = settings sgd_first_run ∧
  ∃ cs, length cs = Z.to_nat (Optimizer.epochs sgd_first_run) ∧
        Optimizer.cost sgd_second_run = Optimizer.cost sgd_first_run ++ cs.
Proof.
  assert (SGD.train (jax := ridge_jax) sgd_first_run four_inputs four_outputs
          = Returns sgd_second_run) as Hrun.
  { unfold sgd_second_run.
    destruct (SGD.train sgd_first_run four_inputs four_outputs) as [s|e] eqn:E;
      [reflexivity|].
    vm_compute in E. discriminate E. }
  split; [exact Hrun|].
  destruct (X5_sgd_train_keeps_settings_and_history (jax := ridge_jax) _ _ _ _ Hrun)
    as (Hset & _ & Hcost & _).
  split; [exact Hset | exact Hcost].
Defined.

(** X6.  A completed [Momentum.train] leaves the layers, the loss and
    accuracy functions, [epochs], [lr], the iterator and [beta] as they
    were, keeps every entry of both histories in place and puts
    [max(epochs, 0)] new entries behind them, leaves one more parameter
    set per layer than there were, and ends with exactly one velocity
    per parameter set. *)
Theorem X6_momentum_train_keeps_settings_and_history {F : Type} {scalar : Scalar F}
    {jax : Jax F} {data : Data F} (m m' : Momentum.t F) (x y : array F) :
  Momentum.train m x y = Returns m' →
  settings (Momentum.base m') = settings (Momentum.base m) ∧
  Momentum.beta m' = Momentum.beta m ∧
  length (Optimizer.network_params (Momentum.base m'))
    = length (Optimizer.network_params (Momentum.base m))
      + length (Optimizer.layers (Momentum.base m)) ∧
  length (Momentum.momentum_params m')
    = length (Optimizer.network_params (Momentum.base m')) ∧
  (∃ cs, length cs = Z.to_nat (Optimizer.epochs (Momentum.base m)) ∧
         Optimizer.cost (Momentum.base m') = Optimizer.cost (Momentum.base m) ++ cs) ∧
  (∃ az, length az = Z.to_nat (Optimizer.epochs (Momentum.base m)) ∧
         Optimizer.accuracy (Momentum.base m')
           = Optimizer.accuracy (Momentum.base m) ++ az).
Proof. apply Momentum_train_spec. Qed.

(** A run of Momentum over the four examples. *)
Lemma X6_witness :
  Momentum.train (jax := ridge_jax) fresh_momentum four_inputs four_outputs
    = Returns momentum_first_run ∧
  Momentum.beta momentum_first_run = Momentum.beta fresh_momentum ∧
  length (Momentum.momentum_params momentum_first_run)
    = length (Optimizer.network_params (Momentum.base momentum_first_run)).
Proof.
  assert (Momentum.train (jax := ridge_jax) fresh_momentum four_inputs four_outputs
          = Returns momentum_first_run) as Hrun.
  { unfold momentum_first_run.
    destruct (Momentum.train fresh_momentum four_inputs four_outputs) as [s|e] eqn:E;
      [reflexivity|].
    vm_compute in E. discriminate E. }
  split; [exact Hrun|].
  destruct (X6_momentum_train_keeps_settings_and_history (jax := ridge_jax) _ _ _ _ Hrun)
    as (_ & Hbeta & _ & Hlen & _).
  split; [exact Hbeta | exact Hlen].
Defined.

(** ** Velocities at initialization *)

Section ZeroArrays.
Context {F : Type} {scalar : Scalar F}.

Lemma rectangular_zeros (s : nat * nat) : rectangular (zeros s).
Proof.
  unfold rectangular, zeros. simpl. apply Forall_replicate. apply length_replicate.
Qed.

Lemma zero_velocities (ps : list (ParamDict F)) :
  let vs := map (λ p, mkParams (zeros_like (w p)) (zeros_like (b p))) ps in
  zero_gradient ps vs ∧ same_shapes vs ps ∧ Forall rectangular_params vs.
Proof.
  simpl. unfold zero_gradient, same_shapes.
  induction ps as [|p ps (IH1 & IH2 & IH3)]; simpl.
  - split; [apply Forall2_nil|]. split; [apply Forall2_nil | apply List.Forall_nil].
  - split; [apply Forall2_cons; [by split | exact IH1]|].
    split.
    + apply Forall2_cons; [|exact IH2]. simpl. unfold zeros_like.
      by rewrite !shape_zeros.
    + apply List.Forall_cons; [|exact IH3].
      unfold rectangular_params. split; simpl; apply rectangular_zeros.
Qed.

End ZeroArrays.

(** X7.  [Momentum.init_network_params] always returns, and takes no
    account of the velocities the optimizer held: it leaves one velocity
    per parameter set, for the sets of earlier runs as for the new ones,
    each the zero array of the shape of its parameter, hence rectangular.
    Velocities do not carry over from one [train] to the next. *)
Theorem X7_momentum_init_resets_velocities {F : Type} {scalar : Scalar F} {jax : Jax F}
    (m : Momentum.t F) (s : nat * nat) :
  ∃ m',
    Momentum.init_network_params m s = Returns m' ∧
    Optimizer.network_params (Momentum.base m')
      = Optimizer.network_params (Momentum.base m)
          ++ initial_params (PRNGKey 0) s.1 (map units (Optimizer.layers (Momentum.base m))) ∧
    zero_gradient (Optimizer.network_params (Momentum.base m')) (Momentum.momentum_params m') ∧
    same_shapes (Momentum.momentum_params m') (Optimizer.network_params (Momentum.base m')) ∧
    Forall rectangular_params (Momentum.momentum_params m') ∧
    ∀ vs, Momentum.init_network_params (Momentum.set_momentum_params vs m) s = Returns m'.
Proof.
  unfold Momentum.init_network_params. simpl.
  rewrite init_network_params_spec. simpl. eexists. split; [reflexivity|]. simpl.
  split; [done|].
  pose proof (zero_velocities
                (Optimizer.network_params (Momentum.base m)
                   ++ initial_params (PRNGKey 0) s.1
                        (map units (Optimizer.layers (Momentum.base m)))))
    as (Hz & Hs & Hr).
  by repeat split.
Qed.

(** ** Shapes through the forward pass *)

Section ShapeFacts.
Context {F : Type} {scalar : Scalar F}.

Lemma shape_broadcast2_same (f : F → F → F) (a c : array F) :
  shape a = shape c →
  ∃ r, broadcast2 f a c = Returns r ∧ shape r = shape a.
Proof.
  intros Hshape. eexists. split; [by apply broadcast2_same_shape|].
  injection Hshape as Hrows _. unfold shape, nrows in *. simpl.
  rewrite length_zip_with. f_equal. lia.
Qed.

Lemma shape_dot (a c : array F) :
  ncols a = nrows c →
  ∃ r, dot a c = Returns r ∧ shape r = (nrows a, ncols c).
Proof.
  intros Hfit. unfold dot. rewrite decide_True by done. eexists. split; [reflexivity|].
  unfold shape, nrows. simpl. by rewrite length_map.
Qed.

Lemma shape_add_bias (z bias : array F) (u m : nat) :
  shape z = (u, m) → shape bias = (u, 1) →
  ∃ r, aadd z bias = Returns r ∧ shape r = (u, m).
Proof.
  intros [= Hzr Hzc] [= Hbr Hbc]. unfold aadd, broadcast2.
  rewrite Hzr, Hbr, Hzc, Hbc, bdim_same. simpl.
  assert (bdim m 1 = Returns m) as ->.
  { unfold bdim. destruct (decide (m = 1)) as [->|]; [done|].
    by rewrite decide_True. }
  simpl. eexists. split; [reflexivity|].
  unfold shape, nrows. simpl. rewrite !stretch_same, length_zip_with, !length_map.
  unfold nrows in Hzr, Hbr. rewrite Hzr, Hbr. f_equal. lia.
Qed.

End ShapeFacts.

Section ForwardPass.
Context {F : Type} {scalar : Scalar F}.
Import Optimizer.

(** The layers still to be passed are [xs], their parameters [rest],
    behind the parameters [pre] of the layers passed already. *)
Lemma forward_layers_from (xs : list (FC F)) (pre rest : list (ParamDict F)) (a : array F) :
  fitting (nrows a) (map units xs) rest →
  (∀ l, l ∈ xs → ∀ z, shape (activation l z) = shape z) →
  ∃ out,
    for_each (forward_layer (pre ++ rest)) (zip (seq (length pre) (length xs)) xs) a
      = Returns out ∧
    shape out = (output_units (nrows a) (map units xs), ncols a).
Proof.
  revert pre rest a. induction xs as [|l xs IH]; intros pre rest a Hfit Hact; simpl in *.
  - by exists a.
  - destruct rest as [|p rest]; [done|]. destruct Hfit as (Hw & Hb & Hfit).
    unfold py_index. rewrite list_lookup_middle by done. simpl.
    destruct (shape_dot (w p) a) as (wa & -> & Hwa).
    { by injection Hw. }
    simpl. destruct (shape_add_bias wa (b p) (units l) (ncols a)) as (z & -> & Hz).
    { rewrite Hwa. by injection Hw as ->. }
    { done. }
    simpl.
    assert (shape (activation l z) = (units l, ncols a)) as Ha.
    { rewrite Hact; [done | apply list_elem_of_here]. }
    injection Ha as Har Hac.
    destruct (IH (pre ++ [p]) rest (activation l z)) as (out & Hout & Hshape).
    { unfold nrows in *. by rewrite Har. }
    { intros l' Hl'. apply Hact. by apply list_elem_of_further. }
    exists out. rewrite length_app in Hout. simpl in Hout.
    replace (length pre + 1) with (S (length pre)) in Hout by lia.
    rewrite <- app_assoc in Hout. simpl in Hout. split; [exact Hout|].
    rewrite Hshape. unfold nrows in *. by rewrite Har, Hac.
Qed.

Lemma fitting_initial_params {jax : Jax F} (key : Key) (prev : nat) (us : list nat) :
  (∀ k s, shape (normal k s) = s) →
  fitting prev us (initial_params key prev us).
Proof.
  intros Hnormal. revert key prev. induction us as [|u us IH]; intros key prev; simpl.
  - done.
  - destruct (split key) as [key' subkey]. simpl.
    split; [by rewrite shape_smap, Hnormal|]. split; [by rewrite shape_zeros|]. apply IH.
Qed.

End ForwardPass.

(** X8.  On parameters that fit the layers and the input (weights of
    shape [(units_i, prev_units)], biases of shape [(units_i, 1)],
    [prev_units] being the input's row count for the first layer), and
    with activations that keep shapes, the forward pass raises nothing:
    [compute_predictions] returns an array with the last layer's units
    as rows and one column per input column, and [compute_cost] returns
    the loss of that array. *)
Theorem X8_forward_pass_returns_on_fitting_parameters {F : Type} {scalar : Scalar F}
    (self : Optimizer.t F) (params : list (ParamDict F)) (x : array F) :
  fitting (nrows x) (map units (Optimizer.layers self)) params →
  (∀ l, l ∈ Optimizer.layers self → ∀ z, shape (activation l z) = shape z) →
  ∃ out,
    Optimizer.compute_predictions self params x = Returns out ∧
    shape out = (output_units (nrows x) (map units (Optimizer.layers self)), ncols x) ∧
    ∀ y, Optimizer.compute_cost self params x y = Returns (Optimizer.loss_fn self out y).
Proof.
  intros Hfit Hact.
  destruct (forward_layers_from (Optimizer.layers self) [] params x Hfit Hact)
    as (out & Hout & Hshape).
  exists out. split; [exact Hout|]. split; [exact Hshape|].
  intros y. unfold Optimizer.compute_cost, Optimizer.compute_predictions, enumerate.
  simpl in Hout. by rewrite Hout.
Qed.

(** The initialized optimizer of two layers on the four examples. *)
Lemma X8_witness :
  fitting (nrows four_inputs) (map units (Optimizer.layers initialized_sgd))
          (Optimizer.network_params initialized_sgd) ∧
  ∃ out, Optimizer.compute_predictions initialized_sgd
           (Optimizer.network_params initialized_sgd) four_inputs = Returns out ∧
         shape out = (1, 4).
Proof.
  assert (fitting (nrows four_inputs) (map units (Optimizer.layers initialized_sgd))
            (Optimizer.network_params initialized_sgd)) as Hfit.
  { vm_compute. repeat split. }
  split; [exact Hfit|].
  destruct (X8_forward_pass_returns_on_fitting_parameters initialized_sgd
              (Optimizer.network_params initialized_sgd) four_inputs Hfit)
    as (out & Hout & Hshape & _).
  { intros l Hl z. change (Optimizer.layers initialized_sgd) with two_layers in Hl.
    unfold two_layers in Hl.
    apply elem_of_cons in Hl as [->|Hl]; [reflexivity|].
    apply elem_of_cons in Hl as [->|Hl]; [reflexivity|].
    by apply elem_of_nil in Hl. }
  exists out. split; [exact Hout | exact Hshape].
Defined.

(** ** Shapes through the updates *)

Lemma for_each_returns {A St : Type} (P : St → Prop) (body : St → A → outcome St)
    (xs : list A) (s : St) :
  (∀ s x, x ∈ xs → P s → ∃ s', body s x = Returns s' ∧ P s') →
  P s → ∃ s', for_each body xs s = Returns s' ∧ P s'.
Proof.
  revert s. induction xs as [|x xs IH]; intros s Hbody Hs; simpl.
  - by exists s.
  - destruct (Hbody s x) as (s1 & -> & Hs1); [apply list_elem_of_here | done |]. simpl.
    apply IH; [|done]. intros s2 x2 Hin. apply Hbody. by apply list_elem_of_further.
Qed.

Lemma repeat_n_returns {St : Type} (P : St → Prop) (body : St → outcome St)
    (n : nat) (s : St) :
  (∀ s, P s → ∃ s', body s = Returns s' ∧ P s') →
  P s → ∃ s', repeat_n body n s = Returns s' ∧ P s'.
Proof.
  intros Hbody. revert s. induction n as [|n IH]; intros s Hs; simpl.
  - by exists s.
  - destruct (Hbody s Hs) as (s1 & -> & Hs1). simpl. by apply IH.
Qed.

Section SameShapes.
Context {F : Type} {scalar : Scalar F}.

Lemma same_shapes_refl (ps : list (ParamDict F)) : same_shapes ps ps.
Proof.
  apply Forall2_same_length_lookup. split; [done|].
  intros i p q Hp Hq. rewrite Hp in Hq. by injection Hq as <-.
Qed.

Lemma same_shapes_trans (ps qs rs : list (ParamDict F)) :
  same_shapes ps qs → same_shapes qs rs → same_shapes ps rs.
Proof.
  unfold same_shapes. intros Hpq Hqr.
  apply Forall2_same_length_lookup. split.
  - apply Forall2_length in Hpq. apply Forall2_length in Hqr. congruence.
  - intros i p r Hp Hr.
    destruct (Forall2_lookup_l _ _ _ _ _ Hpq Hp) as (q & Hq & Hpw & Hpb).
    destruct (Forall2_lookup_lr _ _ _ _ _ _ Hqr Hq Hr) as [Hqw Hqb].
    split; congruence.
Qed.


(** Replacing a parameter set by one of its shapes keeps the shapes. *)
Lemma same_shapes_insert (ps : list (ParamDict F)) (i : nat) (p q : ParamDict F) :
  ps !! i = Some p →
  shape (w q) = shape (w p) → shape (b q) = shape (b p) →
  same_shapes (<[i := q]> ps) ps.
Proof.
  intros Hp Hw Hb. rewrite <- (list_insert_id ps i p Hp) at 2.
  apply Forall2_insert; [apply same_shapes_refl | by split].
Qed.

Lemma fitting_same_shapes (prev : nat) (us : list nat) (ps qs : list (ParamDict F)) :
  fitting prev us ps → same_shapes qs ps → fitting prev us qs.
Proof.
  unfold same_shapes. revert prev ps qs.
  induction us as [|u us IH]; intros prev ps qs Hfit Hsame; simpl in *; [done|].
  destruct ps as [|p ps]; [done|]. destruct Hfit as (Hw & Hb & Hfit).
  inversion Hsame as [|q p' qs' ps' [Hqw Hqb] Hrest]; subst.
  split; [congruence|]. split; [congruence|]. by eapply IH.
Qed.

End SameShapes.

Section SGDShapes.
Context {F : Type} {scalar : Scalar F} {jax : Jax F} {data : Data F}.
Import Optimizer.

(** With a gradient of the shapes of the parameters at its index, the
    body of the layer loop returns, and the new parameters have the
    shapes of the old. *)
Lemma SGD_update_layer_returns (self : Optimizer.t F) (i : nat) (g p : ParamDict F) :
  network_params self !! i = Some p →
  shape (w g) = shape (w p) → shape (b g) = shape (b p) →
  ∃ q, SGD.update_layer self (i, g)
         = Returns (set_network_params (<[i := q]> (network_params self)) self) ∧
       shape (w q) = shape (w p) ∧ shape (b q) = shape (b p).
Proof.
  intros Hp Hw Hb. unfold SGD.update_layer, py_index, asub. rewrite Hp. simpl.
  destruct (shape_broadcast2_same sub (w p) (smap (mul (lr self)) (w g)))
    as (w' & -> & Hw'); [by rewrite shape_smap|]. simpl.
  rewrite list_lookup_insert_eq by by eapply lookup_lt_Some. simpl.
  destruct (shape_broadcast2_same sub (b p) (smap (mul (lr self)) (b g)))
    as (b' & -> & Hb'); [by rewrite shape_smap|]. simpl.
  exists (mkParams w' b'). by rewrite list_insert_insert_eq.
Qed.

Lemma SGD_update_layers_returns_from (gs : list (ParamDict F)) (k : nat)
    (self : Optimizer.t F) :
  (∀ j g, gs !! j = Some g →
     ∃ p, network_params self !! (k + j) = Some p ∧
          shape (w g) = shape (w p) ∧ shape (b g) = shape (b p)) →
  ∃ ps, for_each SGD.update_layer (zip (seq k (length gs)) gs) self
          = Returns (set_network_params ps self) ∧
        same_shapes ps (network_params self).
Proof.
  revert k self. induction gs as [|g gs IH]; intros k self Hgs.
  - exists (network_params self). simpl. rewrite set_network_params_id.
    split; [done | apply same_shapes_refl].
  - destruct (Hgs 0 g eq_refl) as (p & Hp & Hw & Hb). rewrite Nat.add_0_r in Hp.
    change (for_each SGD.update_layer (zip (seq k (length (g :: gs))) (g :: gs)) self)
      with (SGD.update_layer self (k, g)
              ≫= for_each SGD.update_layer (zip (seq (S k) (length gs)) gs)).
    destruct (SGD_update_layer_returns self k g p Hp Hw Hb) as (q & -> & Hqw & Hqb). simpl.
    destruct (IH (S k) (set_network_params (<[k := q]> (network_params self)) self))
      as (ps & -> & Hsame).
    { intros j g' Hg'. destruct (Hgs (S j) g' Hg') as (p' & Hp' & Hs).
      exists p'. split; [|done]. simpl. rewrite list_lookup_insert_ne by lia.
      by replace (S (k + j)) with (k + S j) by lia. }
    exists ps. split; [done|]. simpl in Hsame.
    eapply same_shapes_trans; [exact Hsame|]. by eapply same_shapes_insert.
Qed.

Lemma SGD_update_layers_returns (gs : list (ParamDict F)) (self : Optimizer.t F) :
  same_shapes gs (network_params self) →
  ∃ ps, for_each SGD.update_layer (enumerate gs) self
          = Returns (set_network_params ps self) ∧
        same_shapes ps (network_params self).
Proof.
  intros Hsame. apply SGD_update_layers_returns_from. intros j g Hg.
  destruct (Forall2_lookup_l _ _ _ _ _ Hsame Hg) as (p & Hp & Hw & Hb). by exists p.
Qed.

End SGDShapes.

(** X9.  In a batch of [SGD.train] that completes, if the gradient has
    the shapes of the parameters (one entry per parameter set, [w] and
    [b] of the shapes of that set's), the parameters after the batch
    have the shapes they had before: no update reshapes them. *)
Theorem X9_sgd_batch_keeps_shapes {F : Type} {scalar : Scalar F} {jax : Jax F}
    {data : Data F} (st st' : SGD.locals) (batch : Batch F) (gs : list (ParamDict F)) :
  Optimizer.grad_fn (SGD.self_ st) (Optimizer.network_params (SGD.self_ st))
                    (inputs batch) (outputs batch) = Returns gs →
  same_shapes gs (Optimizer.network_params (SGD.self_ st)) →
  SGD.batch_step st batch = Returns st' →
  same_shapes (Optimizer.network_params (SGD.self_ st'))
              (Optimizer.network_params (SGD.self_ st)).
Proof.
  intros Hgrad Hsame Hrun.
  apply SGD_batch_step_spec in Hrun as (gs' & ps & c & Hgrad' & Hloop & -> & _).
  rewrite Hgrad in Hgrad'. injection Hgrad' as <-.
  destruct (SGD_update_layers_returns gs (SGD.self_ st) Hsame) as (ps' & Hloop' & Hshapes).
  rewrite Hloop in Hloop'. injection Hloop' as ->. exact Hshapes.
Qed.

Lemma ridge_grad_same_shapes
    (cost : list (ParamDict Qc) → array Qc → array Qc → outcome Qc)
    (ps gs : list (ParamDict Qc)) (x y : array Qc) :
  ridge_grad cost ps x y = Returns gs → same_shapes gs ps.
Proof.
  unfold ridge_grad. intros Hrun. returns_inv Hrun. subst gs. apply same_shapes_refl.
Qed.

(** The first batch of the four examples, with the parameters as their
    own gradient. *)
Lemma X9_witness :
  SGD.batch_step (jax := ridge_jax) sgd_entry first_batch = Returns sgd_after_batch ∧
  same_shapes (Optimizer.network_params (SGD.self_ sgd_after_batch))
              (Optimizer.network_params (SGD.self_ sgd_entry)).
Proof.
  assert (SGD.batch_step (jax := ridge_jax) sgd_entry first_batch = Returns sgd_after_batch)
    as Hrun.
  { unfold sgd_after_batch.
    destruct (SGD.batch_step sgd_entry first_batch) as [s|e] eqn:E; [reflexivity|].
    vm_compute in E. discriminate E. }
  split; [exact Hrun|].
  destruct (Optimizer.grad_fn (jax := ridge_jax) (SGD.self_ sgd_entry)
              (Optimizer.network_params (SGD.self_ sgd_entry))
              (inputs first_batch) (outputs first_batch)) as [gs|e] eqn:Hgrad;
    [|vm_compute in Hgrad; discriminate Hgrad].
  exact (X9_sgd_batch_keeps_shapes (jax := ridge_jax) sgd_entry sgd_after_batch
           first_batch gs Hgrad (ridge_grad_same_shapes _ _ _ _ _ Hgrad) Hrun).
Defined.

(** ** Runs that complete *)

Section SGDReturns.
Context {F : Type} {scalar : Scalar F} {jax : Jax F} {data : Data F}.
Import Optimizer.

Lemma compute_predictions_fitting (o : Optimizer.t F) (params : list (ParamDict F))
    (x : array F) :
  fitting (nrows x) (map units (layers o)) params →
  (∀ l, l ∈ layers o → ∀ z, shape (activation l z) = shape z) →
  ∃ out, compute_predictions o params x = Returns out.
Proof.
  intros Hfit Hact.
  destruct (forward_layers_from (layers o) [] params x Hfit Hact) as (out & Hout & _).
  by exists out.
Qed.

Lemma SGD_batch_step_returns (st : SGD.locals) (batch : Batch F) :
  gradient_contract →
  fitting (nrows (inputs batch)) (map units (layers (SGD.self_ st)))
          (network_params (SGD.self_ st)) →
  (∀ l, l ∈ layers (SGD.self_ st) → ∀ z, shape (activation l z) = shape z) →
  ∃ st', SGD.batch_step st batch = Returns st' ∧
         settings (SGD.self_ st') = settings (SGD.self_ st) ∧
         same_shapes (network_params (SGD.self_ st')) (network_params (SGD.self_ st)).
Proof.
  intros Hgrad Hfit Hact. unfold SGD.batch_step.
  destruct (compute_predictions_fitting _ _ _ Hfit Hact) as (out & Hout).
  destruct (Hgrad (SGD.self_ st) (network_params (SGD.self_ st)) (inputs batch)
              (outputs batch) (loss_fn (SGD.self_ st) out (outputs batch)))
    as (gs & -> & Hsame).
  { unfold compute_cost. by rewrite Hout. }
  simpl. destruct (SGD_update_layers_returns gs (SGD.self_ st) Hsame) as (ps & -> & Hps).
  simpl.
  destruct (compute_predictions_fitting
              (set_network_params ps (SGD.self_ st)) ps (inputs batch))
    as (out' & Hout').
  { simpl. by eapply fitting_same_shapes. }
  { exact Hact. }
  unfold compute_cost. simpl. rewrite Hout'. simpl. eexists. split; [reflexivity|].
  simpl. split; [by destruct (SGD.self_ st) | exact Hps].
Qed.

End SGDReturns.

(** X10.  [SGD.train] on an optimizer without parameters runs to its
    end, raising nothing, when its collaborators do what is expected of
    them: the generator draws arrays of the shape asked for, the
    activations keep shapes, every batch has the rows of the data set,
    and the gradient function is defined where the cost is and gives
    gradients of the shapes of the parameters.  The parameters it ends
    with still fit the layers. *)
Theorem X10_sgd_train_returns {F : Type} {scalar : Scalar F} {jax : Jax F}
    {data : Data F} (self : Optimizer.t F) (x y : array F) :
  Optimizer.network_params self = [] →
  (∀ k s, shape (normal k s) = s) →
  (∀ l, l ∈ Optimizer.layers self → ∀ z, shape (activation l z) = shape z) →
  (∀ batch, batch ∈ Optimizer.iterator self x y → nrows (inputs batch) = nrows x) →
  gradient_contract →
  ∃ o, SGD.train self x y = Returns o ∧
       fitting (nrows x) (map units (Optimizer.layers self)) (Optimizer.network_params o).
Proof.
  intros Hfresh Hnormal Hact Hbatch Hgrad.
  unfold SGD.train. rewrite init_network_params_spec, Hfresh. simpl.
  pose (Inv := λ o : Optimizer.t F,
          settings o = settings self ∧
          fitting (nrows x) (map units (Optimizer.layers self)) (Optimizer.network_params o)).
  destruct (repeat_n_returns Inv (SGD.epoch x y) (Z.to_nat (Optimizer.epochs self))
              (Optimizer.set_network_params
                 (initial_params (PRNGKey 0) (nrows x) (map units (Optimizer.layers self)))
                 self)) as (o & Hrun & _ & Hfit).
  - intros o [Hset Hfit].
    assert (Optimizer.layers o = Optimizer.layers self) as Hlayers
      by exact (f_equal (λ q, q.1.1.1.1.1) Hset).
    assert (Optimizer.iterator o = Optimizer.iterator self) as Hiter
      by exact (f_equal snd Hset).
    unfold SGD.epoch.
    destruct (for_each_returns
                (λ st, settings (SGD.self_ st) = settings self ∧
                       fitting (nrows x) (map units (Optimizer.layers self))
                               (Optimizer.network_params (SGD.self_ st)))
                SGD.batch_step (Optimizer.iterator o x y) (SGD.mkLocals o zero))
      as (st & -> & Hset' & Hfit').
    + intros s batch Hin [Hs Hf].
      assert (Optimizer.layers (SGD.self_ s) = Optimizer.layers self) as Hl
        by exact (f_equal (λ q, q.1.1.1.1.1) Hs).
      destruct (SGD_batch_step_returns s batch Hgrad) as (s' & Hstep & Hs' & Hsame).
      * rewrite Hl, Hbatch; [done|]. by rewrite <- Hiter.
      * by rewrite Hl.
      * exists s'. split; [done|]. split; [congruence|]. by eapply fitting_same_shapes.
    + done.
    + simpl.
      assert (Optimizer.layers (SGD.self_ st) = Optimizer.layers self) as Hl
        by exact (f_equal (λ q, q.1.1.1.1.1) Hset').
      destruct (compute_predictions_fitting (SGD.self_ st)
                  (Optimizer.network_params (SGD.self_ st)) x) as (out & Hout).
      * by rewrite Hl.
      * by rewrite Hl.
      * unfold Optimizer.evaluate, Optimizer.compute_predictions in *. simpl.
        rewrite Hout. simpl. eexists. split; [reflexivity|].
        split; [|done]. rewrite <- Hset'. by destruct (SGD.self_ st).
  - split; [by destruct self|]. simpl. by apply fitting_initial_params.
  - by exists o.
Qed.

Lemma sample_normal_shape (k : Z) (s : nat * nat) : shape (sample_normal k s) = s.
Proof.
  destruct s as [r c]. unfold shape, nrows, sample_normal. simpl.
  by rewrite length_map, length_seq.
Qed.

Lemma column_batches_rows {F : Type} (bs : Z) (x y : array F) (batch : Batch F) :
  batch ∈ BatchIterator bs x y → nrows (inputs batch) = nrows x.
Proof.
  unfold BatchIterator, column_batches. intros Hin.
  apply list_elem_of_In, in_map_iff in Hin as (k & <- & _).
  unfold nrows, slice_columns. simpl. by rewrite length_map.
Qed.

Lemma ridge_gradient_contract : gradient_contract (jax := ridge_jax).
Proof.
  intros o ps bx by_ c Hcost. exists ps. split; [|apply same_shapes_refl].
  unfold Optimizer.grad_fn. simpl. unfold ridge_grad. by rewrite Hcost.
Qed.

Lemma two_layers_keep_shapes (l : FC Qc) :
  l ∈ two_layers → ∀ z, shape (activation l z) = shape z.
Proof.
  unfold two_layers. intros Hl z.
  apply elem_of_cons in Hl as [->|Hl]; [reflexivity|].
  apply elem_of_cons in Hl as [->|Hl]; [reflexivity|].
  by apply elem_of_nil in Hl.
Qed.

(** The optimizer of two layers on the four examples, with the
    parameters as their own gradient. *)
Lemma X10_witness :
  Optimizer.network_params fresh_sgd = [] ∧
  gradient_contract (jax := ridge_jax) ∧
  ∃ o, SGD.train (jax := ridge_jax) fresh_sgd four_inputs four_outputs = Returns o ∧
       fitting (nrows four_inputs) (map units (Optimizer.layers fresh_sgd))
               (Optimizer.network_params o).
Proof.
  split; [reflexivity|]. split; [exact ridge_gradient_contract|].
  apply (X10_sgd_train_returns (jax := ridge_jax) fresh_sgd four_inputs four_outputs).
  - reflexivity.
  - exact sample_normal_shape.
  - exact two_layers_keep_shapes.
  - intros batch. apply column_batches_rows.
  - exact ridge_gradient_contract.
Defined.

Section MomentumShapes.
Context {F : Type} {scalar : Scalar F} {jax : Jax F} {data : Data F}.
Import Optimizer.

Lemma shape_velocity_rule_arrays (beta : F) (t : Z) (v g : array F) :
  shape g = shape v →
  ∃ v', velocity_rule_arrays beta t v g = Returns v' ∧ shape v' = shape v.
Proof.
  intros Hshape. unfold velocity_rule_arrays, aadd.
  destruct (shape_broadcast2_same add (smap (mul beta) v)
              (smap (sub one) (smap (mul beta) g))) as (s & -> & Hs).
  { by rewrite !shape_smap. }
  simpl. eexists. split; [reflexivity|]. by rewrite shape_smap, Hs, shape_smap.
Qed.

(** With a gradient and a velocity of the shapes of the parameters at
    its index, the body of Momentum's layer loop returns; the new
    velocity and the new parameters have those shapes too. *)
Lemma Momentum_update_layer_returns (t : Z) (self : Momentum.t F) (i : nat)
    (g v p : ParamDict F) :
  Momentum.momentum_params self !! i = Some v →
  network_params (Momentum.base self) !! i = Some p →
  shape (w g) = shape (w p) → shape (b g) = shape (b p) →
  shape (w v) = shape (w p) → shape (b v) = shape (b p) →
  ∃ q u,
    Momentum.update_layer t self (i, g)
      = Returns (Momentum.mk
                   (set_network_params (<[i := q]> (network_params (Momentum.base self)))
                                       (Momentum.base self))
                   (Momentum.beta self)
                   (<[i := u]> (Momentum.momentum_params self))) ∧
    shape (w q) = shape (w p) ∧ shape (b q) = shape (b p) ∧
    shape (w u) = shape (w v) ∧ shape (b u) = shape (b v).
Proof.
  intros Hv Hp Hgw Hgb Hvw Hvb.
  pose proof (lookup_lt_Some _ _ _ Hv) as Hiv.
  pose proof (lookup_lt_Some _ _ _ Hp) as Hip.
  unfold Momentum.update_layer, py_index, aadd, asub. rewrite Hv. simpl.
  destruct (shape_broadcast2_same add (smap (mul (Momentum.beta self)) (w v))
              (smap (sub one) (smap (mul (Momentum.beta self)) (w g))))
    as (s1 & -> & Hs1); [rewrite !shape_smap; congruence|]. simpl.
  rewrite list_lookup_insert_eq by done. simpl.
  destruct (shape_broadcast2_same add (smap (mul (Momentum.beta self)) (b v))
              (smap (sub one) (smap (mul (Momentum.beta self)) (b g))))
    as (s2 & -> & Hs2); [rewrite !shape_smap; congruence|]. simpl.
  rewrite Hp. simpl. rewrite list_insert_insert_eq.
  rewrite list_lookup_insert_eq by done. simpl.
  rewrite shape_smap in Hs1, Hs2.
  destruct (shape_broadcast2_same sub (w p)
              (smap (mul (lr (Momentum.base self)))
                 (smap (λ x, div x (sub one (pow (Momentum.beta self) t))) s1)))
    as (w' & -> & Hw'); [rewrite !shape_smap; congruence|]. simpl.
  rewrite !list_lookup_insert_eq by done. simpl.
  destruct (shape_broadcast2_same sub (b p)
              (smap (mul (lr (Momentum.base self)))
                 (smap (λ x, div x (sub one (pow (Momentum.beta self) t))) s2)))
    as (b' & -> & Hb'); [rewrite !shape_smap; congruence|]. simpl.
  exists (mkParams w' b'),
         (mkParams (smap (λ x, div x (sub one (pow (Momentum.beta self) t))) s1)
                   (smap (λ x, div x (sub one (pow (Momentum.beta self) t))) s2)).
  unfold Momentum.set_base. simpl. rewrite list_insert_insert_eq.
  split; [done|]. rewrite !shape_smap. by repeat split.
Qed.

Lemma Momentum_update_layers_returns_from (t : Z) (gs : list (ParamDict F)) (k : nat)
    (self : Momentum.t F) :
  (∀ j g, gs !! j = Some g →
     ∃ p v, network_params (Momentum.base self) !! (k + j) = Some p ∧
            Momentum.momentum_params self !! (k + j) = Some v ∧
            shape (w g) = shape (w p) ∧ shape (b g) = shape (b p) ∧
            shape (w v) = shape (w p) ∧ shape (b v) = shape (b p)) →
  ∃ ps vs,
    for_each (Momentum.update_layer t) (zip (seq k (length gs)) gs) self
      = Returns (Momentum.mk (set_network_params ps (Momentum.base self))
                             (Momentum.beta self) vs) ∧
    same_shapes ps (network_params (Momentum.base self)) ∧
    same_shapes vs (Momentum.momentum_params self).
Proof.
  revert k self. induction gs as [|g gs IH]; intros k self Hgs.
  - exists (network_params (Momentum.base self)), (Momentum.momentum_params self).
    simpl. rewrite set_network_params_id.
    split; [by destruct self|]. split; apply same_shapes_refl.
  - destruct (Hgs 0 g eq_refl) as (p & v & Hp & Hv & Hgw & Hgb & Hvw & Hvb).
    rewrite Nat.add_0_r in Hp, Hv.
    change (for_each (Momentum.update_layer t)
              (zip (seq k (length (g :: gs))) (g :: gs)) self)
      with (Momentum.update_layer t self (k, g)
              ≫= for_each (Momentum.update_layer t) (zip (seq (S k) (length gs)) gs)).
    destruct (Momentum_update_layer_returns t self k g v p Hv Hp Hgw Hgb Hvw Hvb)
      as (q & u & -> & Hqw & Hqb & Huw & Hub). simpl.
    destruct (IH (S k)
                (Momentum.mk
                   (set_network_params (<[k := q]> (network_params (Momentum.base self)))
                                       (Momentum.base self))
                   (Momentum.beta self)
                   (<[k := u]> (Momentum.momentum_params self))))
      as (ps & vs & -> & Hps & Hvs).
    { intros j g' Hg'.
      destruct (Hgs (S j) g' Hg') as (p' & v' & Hp' & Hv' & Hs).
      exists p', v'. simpl. rewrite !list_lookup_insert_ne by lia.
      replace (S (k + j)) with (k + S j) by lia. by split; [|split]. }
    exists ps, vs. simpl in *. split; [done|]. split.
    + eapply same_shapes_trans; [exact Hps|]. by eapply same_shapes_insert.
    + eapply same_shapes_trans; [exact Hvs|]. by eapply same_shapes_insert.
Qed.

Lemma Momentum_update_layers_returns (t : Z) (gs : list (ParamDict F))
    (self : Momentum.t F) :
  same_shapes gs (network_params (Momentum.base self)) →
  same_shapes (Momentum.momentum_params self) (network_params (Momentum.base self)) →
  ∃ ps vs,
    for_each (Momentum.update_layer t) (enumerate gs) self
      = Returns (Momentum.mk (set_network_params ps (Momentum.base self))
                             (Momentum.beta self) vs) ∧
    same_shapes ps (network_params (Momentum.base self)) ∧
    same_shapes vs (Momentum.momentum_params self).
Proof.
  intros Hgs Hvs. apply Momentum_update_layers_returns_from. intros j g Hg.
  destruct (Forall2_lookup_l _ _ _ _ _ Hgs Hg) as (p & Hp & Hw & Hb).
  destruct (Forall2_lookup_r _ _ _ _ _ Hvs Hp) as (v & Hv & Hvw & Hvb).
  by exists p, v.
Qed.

End MomentumShapes.

(** X11.  In a batch of [Momentum.train] that completes, if the
    gradient and the velocities have the shapes of the parameters, the
    parameters and the velocities after the batch have the shapes they
    had before. *)
Theorem X11_momentum_batch_keeps_shapes {F : Type} {scalar : Scalar F} {jax : Jax F}
    {data : Data F} (st st' : Momentum.locals) (batch : Batch F) (gs : list (ParamDict F)) :
  Optimizer.grad_fn (Momentum.base (Momentum.self_ st))
    (Optimizer.network_params (Momentum.base (Momentum.self_ st)))
    (inputs batch) (outputs batch) = Returns gs →
  same_shapes gs (Optimizer.network_params (Momentum.base (Momentum.self_ st))) →
  same_shapes (Momentum.momentum_params (Momentum.self_ st))
              (Optimizer.network_params (Momentum.base (Momentum.self_ st))) →
  Momentum.batch_step st batch = Returns st' →
  same_shapes (Optimizer.network_params (Momentum.base (Momentum.self_ st')))
              (Optimizer.network_params (Momentum.base (Momentum.self_ st))) ∧
  same_shapes (Momentum.momentum_params (Momentum.self_ st'))
              (Momentum.momentum_params (Momentum.self_ st)).
Proof.
  intros Hgrad Hgs Hvs Hrun.
  apply Momentum_batch_step_spec in Hrun as (gs' & c & Hgrad' & Hloop & _).
  rewrite Hgrad in Hgrad'. injection Hgrad' as <-.
  destruct (Momentum_update_layers_returns (Momentum.batch_num st) gs (Momentum.self_ st)
              Hgs Hvs) as (ps & vs & Hloop' & Hps & Hvs').
  rewrite Hloop in Hloop'. injection Hloop' as ->. by split.
Qed.

(** The first batch of the four examples, with the parameters as their
    own gradient. *)
Lemma X11_witness :
  same_shapes (Momentum.momentum_params (Momentum.self_ momentum_entry))
              (Optimizer.network_params (Momentum.base (Momentum.self_ momentum_entry))) ∧
  Momentum.batch_step (jax := ridge_jax) momentum_entry first_batch
    = Returns momentum_after_batch ∧
  same_shapes (Optimizer.network_params (Momentum.base (Momentum.self_ momentum_after_batch)))
              (Optimizer.network_params (Momentum.base (Momentum.self_ momentum_entry))) ∧
  same_shapes (Momentum.momentum_params (Momentum.self_ momentum_after_batch))
              (Momentum.momentum_params (Momentum.self_ momentum_entry)).
Proof.
  assert (same_shapes (Momentum.momentum_params (Momentum.self_ momentum_entry))
            (Optimizer.network_params (Momentum.base (Momentum.self_ momentum_entry))))
    as Hvs.
  { vm_compute. repeat constructor. }
  assert (Momentum.batch_step (jax := ridge_jax) momentum_entry first_batch
          = Returns momentum_after_batch) as Hrun.
  { unfold momentum_after_batch.
    destruct (Momentum.batch_step momentum_entry first_batch) as [s|e] eqn:E; [reflexivity|].
    vm_compute in E. discriminate E. }
  split; [exact Hvs|]. split; [exact Hrun|].
  destruct (Optimizer.grad_fn (jax := ridge_jax) (Momentum.base (Momentum.self_ momentum_entry))
              (Optimizer.network_params (Momentum.base (Momentum.self_ momentum_entry)))
              (inputs first_batch) (outputs first_batch)) as [gs|e] eqn:Hgrad;
    [|vm_compute in Hgrad; discriminate Hgrad].
  exact (X11_momentum_batch_keeps_shapes (jax := ridge_jax) momentum_entry
           momentum_after_batch first_batch gs Hgrad
           (ridge_grad_same_shapes _ _ _ _ _ Hgrad) Hvs Hrun).
Defined.

Section MomentumReturns.
Context {F : Type} {scalar : Scalar F} {jax : Jax F} {data : Data F}.
Import Optimizer.


End MomentumReturns.



(** ** A gradient with too many entries *)




(** ** The last entry of the accuracy history *)

Lemma repeat_n_last {St : Type} (body : St → outcome St) (n : nat) (s s' : St) :
  repeat_n body (S n) s = Returns s' →
  ∃ o, repeat_n body n s = Returns o ∧ body o = Returns s'.
Proof.
  replace (S n) with (n + 1) by lia. rewrite repeat_n_add. intros Hrun.
  apply bind_Returns in Hrun as (o & Ho & Hlast). simpl in Hlast.
  apply bind_Returns in Hlast as (o' & Hstep & [= <-]). by exists o.
Qed.

(** X14.  After a completed [SGD.train] with at least one epoch, the
    last entry of [accuracy] is what [evaluate] gives for the optimizer
    as returned, on the data it was trained with: the history ends with
    the accuracy of the final parameters. *)
Theorem X14_sgd_last_accuracy_is_of_final_parameters {F : Type} {scalar : Scalar F}
    {jax : Jax F} {data : Data F} (self o : Optimizer.t F) (x y : array F) :
  (0 < Optimizer.epochs self)%Z →
  SGD.train self x y = Returns o →
  ∃ az acc,
    Optimizer.accuracy o = az ++ [acc] ∧
    Optimizer.evaluate o x y = Returns acc.
Proof.
  intros Hpos. unfold SGD.train. rewrite init_network_params_spec. simpl.
  destruct (Z.to_nat (Optimizer.epochs self)) as [|n] eqn:Hn; [lia|].
  intros Hrun. apply repeat_n_last in Hrun as (o1 & _ & Hlast).
  apply SGD_epoch_spec in Hlast as (st & acc & _ & _ & Heval & Hacc & _).
  by exists (Optimizer.accuracy o1), acc.
Qed.

(** Two epochs of SGD over the four examples. *)
Lemma X14_witness :
  (0 < Optimizer.epochs fresh_sgd)%Z ∧
  SGD.train (jax := ridge_jax) fresh_sgd four_inputs four_outputs = Returns sgd_first_run ∧
  ∃ az acc,
    Optimizer.accuracy sgd_first_run = az ++ [acc] ∧
    Optimizer.evaluate sgd_first_run four_inputs four_outputs = Returns acc.
Proof.
  assert (0 < Optimizer.epochs fresh_sgd)%Z as Hpos by (simpl; lia).
  assert (SGD.train (jax := ridge_jax) fresh_sgd four_inputs four_outputs
          = Returns sgd_first_run) as Hrun.
  { unfold sgd_first_run.
    destruct (SGD.train fresh_sgd four_inputs four_outputs) as [s|e] eqn:E; [reflexivity|].
    vm_compute in E. discriminate E. }
  split; [exact Hpos|]. split; [exact Hrun|].
  exact (X14_sgd_last_accuracy_is_of_final_parameters (jax := ridge_jax)
           fresh_sgd sgd_first_run four_inputs four_outputs Hpos Hrun).
Defined.

(** X15.  The same for [Momentum.train]: with at least one epoch, the
    last entry of [accuracy] is what [evaluate] gives for the optimizer
    as returned, on the data it was trained with. *)
Theorem X15_momentum_last_accuracy_is_of_final_parameters {F : Type} {scalar : Scalar F}
    {jax : Jax F} {data : Data F} (m m' : Momentum.t F) (x y : array F) :
  (0 < Optimizer.epochs (Momentum.base m))%Z →
  Momentum.train m x y = Returns m' →
  ∃ az acc,
    Optimizer.accuracy (Momentum.base m') = az ++ [acc] ∧
    Optimizer.evaluate (Momentum.base m') x y = Returns acc.
Proof.
  intros Hpos. unfold Momentum.train, Momentum.init_network_params.
  rewrite init_network_params_spec. simpl.
  destruct (Z.to_nat (Optimizer.epochs (Momentum.base m))) as [|n] eqn:Hn; [lia|].
  intros Hrun. apply repeat_n_last in Hrun as (o1 & _ & Hlast).
  apply Momentum_epoch_spec in Hlast as (st & acc & _ & _ & Heval & Hacc & _).
  by exists (Optimizer.accuracy (Momentum.base o1)), acc.
Qed.

(** Two epochs of Momentum over the four examples. *)
Lemma X15_witness :
  (0 < Optimizer.epochs (Momentum.base fresh_momentum))%Z ∧
  Momentum.train (jax := ridge_jax) fresh_momentum four_inputs four_outputs
    = Returns momentum_first_run ∧
  ∃ az acc,
    Optimizer.accuracy (Momentum.base momentum_first_run) = az ++ [acc] ∧
    Optimizer.evaluate (Momentum.base momentum_first_run) four_inputs four_outputs
      = Returns acc.
Proof.
  assert (0 < Optimizer.epochs (Momentum.base fresh_momentum))%Z as Hpos by (simpl; lia).
  assert (Momentum.train (jax := ridge_jax) fresh_momentum four_inputs four_outputs
          = Returns momentum_first_run) as Hrun.
  { unfold momentum_first_run.
    destruct (Momentum.train fresh_momentum four_inputs four_outputs) as [s|e] eqn:E;
      [reflexivity|].
    vm_compute in E. discriminate E. }
  split; [exact Hpos|]. split; [exact Hrun|].
  exact (X15_momentum_last_accuracy_is_of_final_parameters (jax := ridge_jax)
           fresh_momentum momentum_first_run four_inputs four_outputs Hpos Hrun).
Defined.
